(** * openff-qcsubmit: workflow components for state enumeration

    A shallow embedding of
      - [openff/qcsubmit/workflow_components/base_component.py]
        ([CustomWorkflowComponent], [ToolkitValidator], [BasicSettings]) and
      - [openff/qcsubmit/workflow_components/state_enumeration.py]
        ([EnumerateTautomers], [EnumerateStereoisomers], [EnumerateProtomers]),
    with the earlier revision [qcsubmit/workflow_components/state_enumeration.py]
    in [Module Legacy].

    Python dictionaries keyed by strings are [gmap string _]; the class-level
    registry [_toolkits], whose iteration order is visible in an error message,
    is an association list.  Code that can raise returns an [Outcome]. *)

From stdpp Require Import base option list strings gmap fin_maps fin_sets.
From Stdlib Require Import ZArith.

Local Open Scope Z_scope.
Local Open Scope string_scope.
Local Open Scope list_scope.

(** ** Exceptions *)

Inductive Exception : Type :=
| ValueError (msg : string)
| ValidationError (field msg : string)
| ModuleNotFoundError (msg : string)
| KeyError (key : string)
| ToolkitError (msg : string).

Inductive Outcome (A : Type) : Type :=
| Return (a : A)
| Raise (e : Exception).
Arguments Return {A} a.
Arguments Raise {A} e.

#[global] Instance Outcome_ret : MRet Outcome := @Return.
#[global] Instance Outcome_bind : MBind Outcome := λ A B f m,
  match m with
  | Return a => f a
  | Raise e => Raise e
  end.

Definition returns {A} (m : Outcome A) : bool :=
  match m with Return _ => true | Raise _ => false end.

(** ** The Python environment and [qcelemental.util.which_import] *)

Class PythonEnv := {
  (** [importlib.util.find_spec] finds the dotted module *)
  importable : string → bool;
  (** [module.__version__] *)
  module_version : string → string;
}.

Section Imports.
Context {env : PythonEnv}.

(** The external helper [which_import(module, package=..., return_bool=True,
    raise_error=..., raise_msg=...)], by its documented contract: the
    module's presence as a boolean, or [ModuleNotFoundError] carrying
    [raise_msg] when [raise_error] is set and the module is absent. *)
Definition which_import (module : string) (package : string)
    (raise_error : bool) (raise_msg : string) : Outcome bool :=
  if importable (package +:+ module) then Return true
  else if raise_error then
    Raise (ModuleNotFoundError
             ("Python module '" +:+ module +:+
              "' not found in envvar PYTHONPATH. " +:+ raise_msg))
  else Return false.

(** [import m; m.__version__] *)
Definition import_version (module : string) : Outcome string :=
  if importable module then Return (module_version module)
  else Raise (ModuleNotFoundError ("No module named '" +:+ module +:+ "'")).
End Imports.

(** ** [ToolkitValidator] *)

Inductive ToolkitWrapper : Type :=
| RDKitToolkitWrapper
| OpenEyeToolkitWrapper.

#[global] Instance ToolkitWrapper_eq_dec : EqDecision ToolkitWrapper.
Proof. solve_decision. Defined.

(** A class-level registry [_toolkits]: provider name to wrapper class. *)
Abbreviation Registry := (list (string * ToolkitWrapper)).

Module ToolkitValidator.

(** [_toolkits] of [ToolkitValidator] *)
Definition _toolkits : Registry :=
  [("rdkit", RDKitToolkitWrapper); ("openeye", OpenEyeToolkitWrapper)].

Definition keys (toolkits : Registry) : list string := toolkits.*1.

(** [toolkits[name]] *)
Fixpoint getitem (toolkits : Registry) (name : string) : Outcome ToolkitWrapper :=
  match toolkits with
  | [] => Raise (KeyError name)
  | (k, w) :: rest => if String.eqb k name then Return w else getitem rest name
  end.

(** [name in toolkits.keys()] *)
Definition contains (toolkits : Registry) (name : string) : bool :=
  existsb (String.eqb name) (keys toolkits).

(** [repr] of the elements of a [dict_keys] of plain names *)
Fixpoint repr_items (names : list string) : string :=
  match names with
  | [] => ""
  | [k] => "'" +:+ k +:+ "'"
  | k :: rest => "'" +:+ k +:+ "', " +:+ repr_items rest
  end.

Definition repr_keys (toolkits : Registry) : string :=
  "dict_keys([" +:+ repr_items (keys toolkits) +:+ "])".

(** The validator of the field [toolkit]. *)
Definition _check_toolkit (toolkits : Registry) (toolkit : string) : Outcome string :=
  if negb (contains toolkits toolkit) then
    Raise (ValueError
             ("The requested toolkit (" +:+ toolkit +:+
              ") is not support by the OFFTK. " +:+
              "Please chose from " +:+ repr_keys toolkits +:+ "."))
  else Return toolkit.

Definition openeye_msg : string :=
  "Please install via `conda install openeye-toolkits -c openeye`.".
Definition rdkit_msg : string :=
  "Please install via `conda install rdkit -c conda-forge`.".
Definition both_missing_msg : string :=
  "Openeye or RDKit is required to use this component please install via " +:+
  "`conda install openeye-toolkits -c openeye` or " +:+
  "`conda install rdkit -c conda-forge`.".

Section Availability.
Context {env : PythonEnv}.

(** The body of [for toolkit in cls._toolkits] in [is_available]. *)
Fixpoint probe (raise_error : bool) (names : list string) : Outcome bool :=
  match names with
  | [] =>
      (* if we are here both toolkits are missing *)
      Raise (ModuleNotFoundError both_missing_msg)
  | toolkit :: rest =>
      if String.eqb toolkit "openeye" then
        oe ← which_import ".oechem" "openeye" raise_error openeye_msg;
        if (oe : bool) then Return true else probe raise_error rest
      else if String.eqb toolkit "rdkit" then
        rdkit ← which_import "rdkit" "" raise_error rdkit_msg;
        if (rdkit : bool) then Return true else probe raise_error rest
      else probe raise_error rest
  end.

(** the module that [is_available] looks for under this name is there *)
Definition provider_present (toolkit : string) : bool :=
  (String.eqb toolkit "openeye" && importable "openeye.oechem") ||
  (String.eqb toolkit "rdkit" && importable "rdkit").

Definition is_available (toolkits : Registry) : Outcome bool :=
  let raise_error := bool_decide (length toolkits = 1%nat) in
  probe raise_error (keys toolkits).

(** [provenance] of the mixin, a dictionary of version strings. *)
Definition provenance (toolkit : string) : Outcome (gmap string string) :=
  let provenance : gmap string string :=
    {[ "openff-toolkit" := module_version "openff.toolkit";
       "openff-qcsubmit" := module_version "openff.qcsubmit" ]} in
  if String.eqb toolkit "rdkit" then
    v ← import_version "rdkit";
    Return (<["rdkit" := v]> provenance)
  else if String.eqb toolkit "openeye" then
    v ← import_version "openeye";
    Return (<["openeye" := v]> provenance)
  else Return provenance.
End Availability.

End ToolkitValidator.

Module BasicSettings.
Definition is_available : Outcome bool := Return true.

Definition provenance {env : PythonEnv} : Outcome (gmap string string) :=
  Return {[ "openff-toolkit" := module_version "openff.toolkit";
            "openff-qcsubmit" := module_version "openff.qcsubmit" ]}.
End BasicSettings.

(** ** The molecule toolkit (external) *)

(** Values stored in the private dictionary [_cache]: an instance of a
    toolkit wrapper class, or a plain flag.  [_apply] of the protomer
    component tests the stored value for truth. *)
Inductive CacheValue : Type :=
| ToolkitInstance (wrapper : ToolkitWrapper)
| PyBool (b : bool).

Definition truthy (v : CacheValue) : bool :=
  match v with
  | ToolkitInstance _ => true
  | PyBool b => b
  end.

Abbreviation Cache := (gmap string CacheValue).

(** [cache[key]] *)
Definition cache_getitem (cache : Cache) (key : string) : Outcome CacheValue :=
  match cache !! key with
  | Some v => Return v
  | None => Raise (KeyError key)
  end.

(** The chemistry operations of [openff.toolkit] that the components call,
    and [check_missing_stereo] of [openff.qcsubmit.utils]; each is opaque
    to the components. A call that raises is [Raise e]. *)
Class MoleculeToolkit (Molecule : Type) := {
  (** the canonical identity under which results are keyed *)
  identity : Molecule → string;
  (** the record kept when a repeat is merged onto an existing identity *)
  merge_conformers : Molecule → Molecule → Molecule;
  (** [__init__] of a wrapper class *)
  wrapper_init : ToolkitWrapper → Outcome ();
  enumerate_tautomers : Molecule → Z → CacheValue → Outcome (list Molecule);
  enumerate_stereoisomers :
    Molecule → bool → Z → bool → CacheValue → Outcome (list Molecule);
  enumerate_protomers : Molecule → Z → Outcome (list Molecule);
  (** [generate_conformers] updates the molecule in place *)
  generate_conformers : Molecule → Z → Outcome Molecule;
  check_missing_stereo : Molecule → bool;
  (** conformers do not enter the identity *)
  merge_conformers_identity a b :
    identity a = identity b → identity (merge_conformers a b) = identity a;
  generate_conformers_identity m n m' :
    generate_conformers m n = Return m' → identity m' = identity m;
}.

(** ** [ComponentProperties] and [ComponentResult] *)

(** Modelled from the spec: [ComponentProperties] of
    [openff.qcsubmit.common_structures], which is not among the sources;
    [properties() -> {process_parallel: bool, produces_duplicates: bool}]. *)
Record ComponentProperties : Type := {
  process_parallel : bool;
  produces_duplicates : bool;
}.

Inductive FieldValue : Type :=
| FStr (s : string)
| FInt (z : Z)
| FBool (b : bool).

Module ComponentResult.
Section Result.
Context {Molecule : Type} {tk : MoleculeToolkit Molecule}.

(** Modelled from the spec: [openff.qcsubmit.datasets.ComponentResult],
    which is not among the sources.  [passed] and [filtered] are mappings
    from canonical identity to molecule; the constructor receives the
    keyword arguments that [_create_result] passes. *)
Record t : Type := {
  component_name : string;
  component_description : gmap string FieldValue;
  component_provenance : gmap string string;
  skip_unique_check : bool;
  _molecules : gmap string Molecule;
  _filtered : gmap string Molecule;
}.

(** Modelled from the spec: the read-only sequences [molecules] and
    [filtered], materialised from the mappings on each access. *)
Definition molecules (self : t) : list Molecule :=
  (map_to_list (_molecules self)).*2.
Definition filtered (self : t) : list Molecule :=
  (map_to_list (_filtered self)).*2.

Definition passed_ids (self : t) : gset string := dom (_molecules self).
Definition filtered_ids (self : t) : gset string := dom (_filtered self).

Definition with_molecules (self : t) (m : gmap string Molecule) : t :=
  {| component_name := component_name self;
     component_description := component_description self;
     component_provenance := component_provenance self;
     skip_unique_check := skip_unique_check self;
     _molecules := m;
     _filtered := _filtered self |}.

(** Modelled from the spec: [add_molecule].  A molecule present in
    [filtered] must not also appear in [passed]; an identity is added at
    most once, and when the uniqueness check runs a repeat is merged onto
    the entry of its identity. *)
Definition add_molecule (self : t) (molecule : Molecule) : t :=
  let key := identity molecule in
  match _filtered self !! key with
  | Some _ => self
  | None =>
      match _molecules self !! key with
      | Some old =>
          if skip_unique_check self then self
          else with_molecules self
                 (<[key := merge_conformers old molecule]> (_molecules self))
      | None => with_molecules self (<[key := molecule]> (_molecules self))
      end
  end.

(** Modelled from the spec: [filter_molecule].  The molecule is recorded
    in [filtered] under its identity and no longer appears in [passed]. *)
Definition filter_molecule (self : t) (molecule : Molecule) : t :=
  let key := identity molecule in
  {| component_name := component_name self;
     component_description := component_description self;
     component_provenance := component_provenance self;
     skip_unique_check := skip_unique_check self;
     _molecules := delete key (_molecules self);
     _filtered :=
       match _filtered self !! key with
       | Some _ => _filtered self
       | None => <[key := molecule]> (_filtered self)
       end |}.
End Result.
Arguments t : clear implicits.
End ComponentResult.

Abbreviation ComponentResult := ComponentResult.t.

(** ** [CustomWorkflowComponent] *)

Module CustomWorkflowComponent.
Section Component.
Context {Molecule : Type} {tk : MoleculeToolkit Molecule}.

(** The abstract base class: its abstract methods and overridable hooks are
    the fields.  [_apply] reads the private [_cache] of the instance it runs
    on. *)
Record t : Type := {
  type : string;
  description : string;
  fail_reason : string;
  properties : ComponentProperties;
  is_available : Outcome bool;
  provenance : Outcome (gmap string string);
  dict : gmap string FieldValue;
  _apply : Cache → list Molecule → Outcome (ComponentResult Molecule);
  _apply_init : ComponentResult Molecule → Cache → Outcome Cache;
  _apply_finalize : ComponentResult Molecule → Cache → Outcome Cache;
}.

Definition info (self : t) : gmap string string :=
  {[ "name" := type self;
     "description" := description self;
     "fail_reason" := fail_reason self ]}.

(** The hooks of the base class clear the cache. *)
Definition default_apply_init
    (result : ComponentResult Molecule) (cache : Cache) : Outcome Cache :=
  Return ∅.
Definition default_apply_finalize
    (result : ComponentResult Molecule) (cache : Cache) : Outcome Cache :=
  Return ∅.

(** The body of [_create_result], shared by every subclass. *)
Definition create_result (type : string) (dict : gmap string FieldValue)
    (provenance : Outcome (gmap string string))
    (properties : ComponentProperties) : Outcome (ComponentResult Molecule) :=
  component_provenance ← provenance;
  Return {| ComponentResult.component_name := type;
            ComponentResult.component_description := dict;
            ComponentResult.component_provenance := component_provenance;
            ComponentResult.skip_unique_check := negb (produces_duplicates properties);
            ComponentResult._molecules := ∅;
            ComponentResult._filtered := ∅ |}.

Definition _create_result (self : t) : Outcome (ComponentResult Molecule) :=
  create_result (type self) (dict self) (provenance self) (properties self).

(** What a run of [apply] does to the process: the instance's [_cache] and
    where the dispatch units were sent. *)
Inductive Event : Type :=
| PoolOpened (processes : option Z)
| Submitted (molecule : Molecule)
| RanInCaller (molecule : Molecule).

Record World : Type := {
  _cache : Cache;
  events : list Event;
}.

(** [for success in work.molecules: result.add_molecule(success)] and
    [for fail in work.filtered: result.filter_molecule(fail)] *)
Definition merge (result work : ComponentResult Molecule) : ComponentResult Molecule :=
  foldl ComponentResult.filter_molecule
        (foldl ComponentResult.add_molecule result (ComponentResult.molecules work))
        (ComponentResult.filtered work).

(** [processors is None or processors > 1] *)
Definition pool_requested (processors : option Z) : bool :=
  match processors with
  | None => true
  | Some n => (1 <? n)%Z
  end.

(** The loop over [work_list]: [work.get()] returns the unit's result or
    raises what the unit raised. *)
Fixpoint collect (work_list : list (Outcome (ComponentResult Molecule)))
    (result : ComponentResult Molecule) : Outcome (ComponentResult Molecule) :=
  match work_list with
  | [] => Return result
  | work :: rest =>
      match work with
      | Return work => collect rest (merge result work)
      | Raise e => Raise e
      end
  end.

(** The loop of the [else] branch, in the calling context. *)
Fixpoint run_sequential (self : t) (cache : Cache) (molecules : list Molecule)
    (result : ComponentResult Molecule)
    : Outcome (ComponentResult Molecule) * list Event :=
  match molecules with
  | [] => (Return result, [])
  | molecule :: rest =>
      match _apply self cache [molecule] with
      | Return work =>
          let '(outcome, evs) := run_sequential self cache rest (merge result work) in
          (outcome, RanInCaller molecule :: evs)
      | Raise e => (Raise e, [RanInCaller molecule])
      end
  end.

(** [pool.apply_async(self._apply, ([molecule],)) for molecule in molecules]:
    each unit runs [_apply] on a copy of the component, cache included. *)
Definition work_list (self : t) (cache : Cache) (molecules : list Molecule)
    : list (Outcome (ComponentResult Molecule)) :=
  (λ molecule, _apply self cache [molecule]) <$> molecules.

(** The [if] branch: every unit is submitted to the pool, then the results
    are collected in the order of [work_list]. *)
Definition run_pool (self : t) (cache : Cache) (processors : option Z)
    (molecules : list Molecule) (result : ComponentResult Molecule)
    : Outcome (ComponentResult Molecule) * list Event :=
  (collect (work_list self cache molecules) result,
   PoolOpened processors :: (Submitted <$> molecules)).

Definition log (w : World) (cache : Cache) (evs : list Event) : World :=
  {| _cache := cache; events := events w ++ evs |}.

Definition apply (self : t) (molecules : list Molecule)
    (processors : option Z) (verbose : bool) (w : World)
    : Outcome (ComponentResult Molecule) * World :=
  match _create_result self with
  | Raise e => (Raise e, w)
  | Return result =>
      match _apply_init self result (_cache w) with
      | Raise e => (Raise e, w)
      | Return cache =>
          let '(outcome, evs) :=
            if pool_requested processors && process_parallel (properties self)
            then run_pool self cache processors molecules result
            else run_sequential self cache molecules result in
          match outcome with
          | Raise e => (Raise e, log w cache evs)
          | Return result =>
              match _apply_finalize self result cache with
              | Raise e => (Raise e, log w cache evs)
              | Return cache' => (Return result, log w cache' evs)
              end
          end
      end
  end.

End Component.
Arguments t : clear implicits.
Arguments World : clear implicits.
Arguments Event : clear implicits.
End CustomWorkflowComponent.

(** ** The state-enumeration components *)

Module EnumerateTautomers.
Section Component.
Context {Molecule : Type} {tk : MoleculeToolkit Molecule} {env : PythonEnv}.

Record t : Type := {
  toolkit : string;
  max_tautomers : Z;
}.

Definition type : string := "EnumerateTautomers".
Definition _toolkits : Registry := ToolkitValidator._toolkits.

Definition description : string :=
  "Enumerate the tautomers of a molecule if possible, returning the input plus any new molecules.".
Definition fail_reason : string :=
  "The molecule tautomers could not be enumerated.".
Definition properties : ComponentProperties :=
  {| process_parallel := true; produces_duplicates := true |}.

Definition dict (self : t) : gmap string FieldValue :=
  {[ "type" := FStr type;
     "toolkit" := FStr (toolkit self);
     "max_tautomers" := FInt (max_tautomers self) ]}.

Definition _create_result (self : t) : Outcome (ComponentResult Molecule) :=
  CustomWorkflowComponent.create_result
    type (dict self) (ToolkitValidator.provenance (toolkit self)) properties.

(** [self._cache["toolkit"] = self._toolkits[self.toolkit]()] *)
Definition _apply_init (self : t)
    (result : ComponentResult Molecule) (cache : Cache) : Outcome Cache :=
  wrapper ← ToolkitValidator.getitem _toolkits (toolkit self);
  _ ← wrapper_init wrapper;
  Return (<["toolkit" := ToolkitInstance wrapper]> cache).

(** One iteration of [for molecule in molecules], with its [try]. *)
Definition step (self : t) (toolkit : CacheValue)
    (result : ComponentResult Molecule) (molecule : Molecule)
    : ComponentResult Molecule :=
  match enumerate_tautomers molecule (max_tautomers self) toolkit with
  | Return tautomers =>
      let result := foldl ComponentResult.add_molecule result tautomers in
      (* add the input molecule *)
      ComponentResult.add_molecule result molecule
  | Raise _ => ComponentResult.filter_molecule result molecule
  end.

Definition _apply (self : t) (cache : Cache) (molecules : list Molecule)
    : Outcome (ComponentResult Molecule) :=
  toolkit ← cache_getitem cache "toolkit";
  result ← _create_result self;
  Return (foldl (step self toolkit) result molecules).

(** Construction from keyword arguments: the validator of [toolkit] runs,
    and what it raises is reported as a validation error of that field. *)
Definition new (toolkit : string) (max_tautomers : Z) : Outcome t :=
  match ToolkitValidator._check_toolkit _toolkits toolkit with
  | Return toolkit => Return {| toolkit := toolkit; max_tautomers := max_tautomers |}
  | Raise (ValueError msg) => Raise (ValidationError "toolkit" msg)
  | Raise e => Raise e
  end.

Definition component (self : t) : CustomWorkflowComponent.t Molecule :=
  {| CustomWorkflowComponent.type := type;
     CustomWorkflowComponent.description := description;
     CustomWorkflowComponent.fail_reason := fail_reason;
     CustomWorkflowComponent.properties := properties;
     CustomWorkflowComponent.is_available := ToolkitValidator.is_available _toolkits;
     CustomWorkflowComponent.provenance := ToolkitValidator.provenance (toolkit self);
     CustomWorkflowComponent.dict := dict self;
     CustomWorkflowComponent._apply := _apply self;
     CustomWorkflowComponent._apply_init := _apply_init self;
     CustomWorkflowComponent._apply_finalize :=
       CustomWorkflowComponent.default_apply_finalize |}.

End Component.
End EnumerateTautomers.

Module EnumerateStereoisomers.
Section Component.
Context {Molecule : Type} {tk : MoleculeToolkit Molecule} {env : PythonEnv}.

Record t : Type := {
  toolkit : string;
  undefined_only : bool;
  max_isomers : Z;
  rationalise : bool;
}.

Definition type : string := "EnumerateStereoisomers".
Definition _toolkits : Registry := ToolkitValidator._toolkits.

Definition description : string :=
  "Enumerate the stereo centers and bonds of the molecule, returing the input molecule if valid and any new molecules.".
Definition fail_reason : string :=
  "The molecules stereo centers or bonds could not be enumerated.".
Definition properties : ComponentProperties :=
  {| process_parallel := true; produces_duplicates := true |}.

Definition dict (self : t) : gmap string FieldValue :=
  {[ "type" := FStr type;
     "toolkit" := FStr (toolkit self);
     "undefined_only" := FBool (undefined_only self);
     "max_isomers" := FInt (max_isomers self);
     "rationalise" := FBool (rationalise self) ]}.

Definition _create_result (self : t) : Outcome (ComponentResult Molecule) :=
  CustomWorkflowComponent.create_result
    type (dict self) (ToolkitValidator.provenance (toolkit self)) properties.

Definition _apply_init (self : t)
    (result : ComponentResult Molecule) (cache : Cache) : Outcome Cache :=
  wrapper ← ToolkitValidator.getitem _toolkits (toolkit self);
  _ ← wrapper_init wrapper;
  Return (<["toolkit" := ToolkitInstance wrapper]> cache).

(** [for isomer in isomers: if not check_missing_stereo(isomer): ...] *)
Definition add_defined (result : ComponentResult Molecule) (isomer : Molecule)
    : ComponentResult Molecule :=
  if negb (check_missing_stereo isomer)
  then ComponentResult.add_molecule result isomer
  else result.

(** [if self.rationalise: molecule.generate_conformers(n_conformers=1)] *)
Definition rationalised (self : t) (molecule : Molecule) : Outcome Molecule :=
  if rationalise self then generate_conformers molecule 1 else Return molecule.

Definition step (self : t) (toolkit : CacheValue)
    (result : ComponentResult Molecule) (molecule : Molecule)
    : ComponentResult Molecule :=
  match enumerate_stereoisomers molecule (undefined_only self) (max_isomers self)
          (rationalise self) toolkit with
  | Return isomers =>
      (* now check that each molecule is well defined *)
      let result := foldl add_defined result isomers in
      (* now check the input, rationalise if needed *)
      match rationalised self molecule with
      | Return molecule => add_defined result molecule
      | Raise _ => ComponentResult.filter_molecule result molecule
      end
  | Raise _ => ComponentResult.filter_molecule result molecule
  end.

Definition _apply (self : t) (cache : Cache) (molecules : list Molecule)
    : Outcome (ComponentResult Molecule) :=
  toolkit ← cache_getitem cache "toolkit";
  result ← _create_result self;
  Return (foldl (step self toolkit) result molecules).

Definition new (toolkit : string) (undefined_only : bool) (max_isomers : Z)
    (rationalise : bool) : Outcome t :=
  match ToolkitValidator._check_toolkit _toolkits toolkit with
  | Return toolkit =>
      Return {| toolkit := toolkit; undefined_only := undefined_only;
                max_isomers := max_isomers; rationalise := rationalise |}
  | Raise (ValueError msg) => Raise (ValidationError "toolkit" msg)
  | Raise e => Raise e
  end.

Definition component (self : t) : CustomWorkflowComponent.t Molecule :=
  {| CustomWorkflowComponent.type := type;
     CustomWorkflowComponent.description := description;
     CustomWorkflowComponent.fail_reason := fail_reason;
     CustomWorkflowComponent.properties := properties;
     CustomWorkflowComponent.is_available := ToolkitValidator.is_available _toolkits;
     CustomWorkflowComponent.provenance := ToolkitValidator.provenance (toolkit self);
     CustomWorkflowComponent.dict := dict self;
     CustomWorkflowComponent._apply := _apply self;
     CustomWorkflowComponent._apply_init := _apply_init self;
     CustomWorkflowComponent._apply_finalize :=
       CustomWorkflowComponent.default_apply_finalize |}.

End Component.
End EnumerateStereoisomers.

Module EnumerateProtomers.
Section Component.
Context {Molecule : Type} {tk : MoleculeToolkit Molecule} {env : PythonEnv}.

Record t : Type := {
  toolkit : string;
  max_states : Z;
}.

Definition type : string := "EnumerateProtomers".
(** restrict the allowed toolkits for this module *)
Definition _toolkits : Registry := [("openeye", OpenEyeToolkitWrapper)].

Definition description : string :=
  "Enumerate the protomers of the molecule, returning the input molecule and any new molecules.".
Definition fail_reason : string :=
  "The molecules formal charges could not be enumerated possibly due to a missing toolkit.".
Definition properties : ComponentProperties :=
  {| process_parallel := true; produces_duplicates := true |}.

Definition dict (self : t) : gmap string FieldValue :=
  {[ "type" := FStr type;
     "toolkit" := FStr (toolkit self);
     "max_states" := FInt (max_states self) ]}.

Definition _create_result (self : t) : Outcome (ComponentResult Molecule) :=
  CustomWorkflowComponent.create_result
    type (dict self) (ToolkitValidator.provenance (toolkit self)) properties.

Definition _apply_init (self : t)
    (result : ComponentResult Molecule) (cache : Cache) : Outcome Cache :=
  wrapper ← ToolkitValidator.getitem _toolkits (toolkit self);
  _ ← wrapper_init wrapper;
  Return (<["toolkit" := ToolkitInstance wrapper]> cache).

Definition step (self : t)
    (result : ComponentResult Molecule) (molecule : Molecule)
    : ComponentResult Molecule :=
  match enumerate_protomers molecule (max_states self) with
  | Return protomers =>
      let result := foldl ComponentResult.add_molecule result protomers in
      ComponentResult.add_molecule result molecule
  | Raise _ => ComponentResult.filter_molecule result molecule
  end.

Definition _apply (self : t) (cache : Cache) (molecules : list Molecule)
    : Outcome (ComponentResult Molecule) :=
  result ← _create_result self;
  has_oe ← cache_getitem cache "toolkit";
  (* must have openeye to use this feature *)
  if truthy has_oe then Return (foldl (step self) result molecules)
  else Return (foldl ComponentResult.filter_molecule result molecules).

Definition new (toolkit : string) (max_states : Z) : Outcome t :=
  match ToolkitValidator._check_toolkit _toolkits toolkit with
  | Return toolkit => Return {| toolkit := toolkit; max_states := max_states |}
  | Raise (ValueError msg) => Raise (ValidationError "toolkit" msg)
  | Raise e => Raise e
  end.

Definition component (self : t) : CustomWorkflowComponent.t Molecule :=
  {| CustomWorkflowComponent.type := type;
     CustomWorkflowComponent.description := description;
     CustomWorkflowComponent.fail_reason := fail_reason;
     CustomWorkflowComponent.properties := properties;
     CustomWorkflowComponent.is_available := ToolkitValidator.is_available _toolkits;
     CustomWorkflowComponent.provenance := ToolkitValidator.provenance (toolkit self);
     CustomWorkflowComponent.dict := dict self;
     CustomWorkflowComponent._apply := _apply self;
     CustomWorkflowComponent._apply_init := _apply_init self;
     CustomWorkflowComponent._apply_finalize :=
       CustomWorkflowComponent.default_apply_finalize |}.

End Component.
End EnumerateProtomers.

(** The three concrete components of [state_enumeration.py]. *)
Module Enumerator.
Section Variants.
Context {Molecule : Type} {tk : MoleculeToolkit Molecule} {env : PythonEnv}.

Inductive t : Type :=
| Tautomers (self : EnumerateTautomers.t)
| Stereoisomers (self : EnumerateStereoisomers.t)
| Protomers (self : EnumerateProtomers.t).

Definition component (e : t) : CustomWorkflowComponent.t Molecule :=
  match e with
  | Tautomers self => EnumerateTautomers.component self
  | Stereoisomers self => EnumerateStereoisomers.component self
  | Protomers self => EnumerateProtomers.component self
  end.

Definition toolkit (e : t) : string :=
  match e with
  | Tautomers self => EnumerateTautomers.toolkit self
  | Stereoisomers self => EnumerateStereoisomers.toolkit self
  | Protomers self => EnumerateProtomers.toolkit self
  end.

Definition _toolkits (e : t) : Registry :=
  match e with
  | Tautomers _ => EnumerateTautomers._toolkits
  | Stereoisomers _ => EnumerateStereoisomers._toolkits
  | Protomers _ => EnumerateProtomers._toolkits
  end.

(** The toolkit call made for [molecule] inside the [try] raises. *)
Definition transform_raises (e : t) (toolkit : CacheValue) (molecule : Molecule) : bool :=
  match e with
  | Tautomers self =>
      negb (returns (enumerate_tautomers molecule
                       (EnumerateTautomers.max_tautomers self) toolkit))
  | Stereoisomers self =>
      match enumerate_stereoisomers molecule
              (EnumerateStereoisomers.undefined_only self)
              (EnumerateStereoisomers.max_isomers self)
              (EnumerateStereoisomers.rationalise self) toolkit with
      | Return _ => negb (returns (EnumerateStereoisomers.rationalised self molecule))
      | Raise _ => true
      end
  | Protomers self =>
      negb (returns (enumerate_protomers molecule (EnumerateProtomers.max_states self)))
  end.

(** The stereoisomer component leaves its input out of the result: the
    toolkit calls succeed and the input has undefined stereochemistry. *)
Definition input_dropped (e : t) (toolkit : CacheValue) (molecule : Molecule) : bool :=
  match e with
  | Stereoisomers self =>
      match enumerate_stereoisomers molecule
              (EnumerateStereoisomers.undefined_only self)
              (EnumerateStereoisomers.max_isomers self)
              (EnumerateStereoisomers.rationalise self) toolkit with
      | Return _ =>
          match EnumerateStereoisomers.rationalised self molecule with
          | Return molecule => check_missing_stereo molecule
          | Raise _ => false
          end
      | Raise _ => false
      end
  | _ => false
  end.

(** The body of the loop of [_apply], given the cached toolkit value. *)
Definition step (e : t) (toolkit : CacheValue)
    (result : ComponentResult Molecule) (molecule : Molecule)
    : ComponentResult Molecule :=
  match e with
  | Tautomers self => EnumerateTautomers.step self toolkit result molecule
  | Stereoisomers self => EnumerateStereoisomers.step self toolkit result molecule
  | Protomers self =>
      if truthy toolkit then EnumerateProtomers.step self result molecule
      else ComponentResult.filter_molecule result molecule
  end.

(** the result [_create_result] builds once [provenance()] has returned *)
Definition fresh (e : t) (provenance : gmap string string) : ComponentResult Molecule :=
  {| ComponentResult.component_name := CustomWorkflowComponent.type (component e);
     ComponentResult.component_description := CustomWorkflowComponent.dict (component e);
     ComponentResult.component_provenance := provenance;
     ComponentResult.skip_unique_check :=
       negb (produces_duplicates (CustomWorkflowComponent.properties (component e)));
     ComponentResult._molecules := ∅;
     ComponentResult._filtered := ∅ |}.

(** [self._toolkits[self.toolkit]()], the value [_apply_init] caches *)
Definition new_toolkit (e : t) : Outcome CacheValue :=
  wrapper ← ToolkitValidator.getitem (_toolkits e) (toolkit e);
  _ ← wrapper_init wrapper;
  Return (ToolkitInstance wrapper).

(** The three classes, and their construction with a given [toolkit] and
    the default values of the other fields. *)
Inductive Kind : Type := KTautomers | KStereoisomers | KProtomers.

Definition registry (kind : Kind) : Registry :=
  match kind with
  | KTautomers => EnumerateTautomers._toolkits
  | KStereoisomers => EnumerateStereoisomers._toolkits
  | KProtomers => EnumerateProtomers._toolkits
  end.

Definition new (kind : Kind) (toolkit : string)
    : Outcome (CustomWorkflowComponent.t Molecule) :=
  match kind with
  | KTautomers =>
      self ← EnumerateTautomers.new toolkit 20;
      Return (component (Tautomers self))
  | KStereoisomers =>
      self ← EnumerateStereoisomers.new toolkit false 20 true;
      Return (component (Stereoisomers self))
  | KProtomers =>
      self ← EnumerateProtomers.new toolkit 10;
      Return (component (Protomers self))
  end.

End Variants.
Arguments t : clear implicits.
End Enumerator.

(** The caller's [Component(toolkit=...).apply(molecules)]: the component is
    constructed, then applied. *)
Definition construct_and_apply {Molecule : Type} {tk : MoleculeToolkit Molecule}
    (constructed : Outcome (CustomWorkflowComponent.t Molecule))
    (molecules : list Molecule) (processors : option Z) (verbose : bool)
    (w : CustomWorkflowComponent.World Molecule)
    : Outcome (ComponentResult Molecule) * CustomWorkflowComponent.World Molecule :=
  match constructed with
  | Return self => CustomWorkflowComponent.apply self molecules processors verbose w
  | Raise e => (Raise e, w)
  end.

(** The text [needle] occurs in [text]. *)
Definition occurs_in (needle text : string) : Prop :=
  ∃ before after, text = before +:+ needle +:+ after.

(** ** The earlier revision of the components *)

(** [qcsubmit/workflow_components/state_enumeration.py]: the bodies of the
    loops of [_apply] in that revision, whose base class is not among the
    sources. *)
Module Legacy.
Section Loops.
Context {Molecule : Type} {tk : MoleculeToolkit Molecule}.

Record EnumerateStereoisomers : Type := {
  undefined_only : bool;
  max_isomers : Z;
  rationalise : bool;
  include_input : bool;
}.

(** [EnumerateTautomers._apply]: the input is added only when no tautomer
    was found. *)
Definition tautomers_step (max_tautomers : Z) (toolkit : CacheValue)
    (result : ComponentResult Molecule) (molecule : Molecule)
    : ComponentResult Molecule :=
  match enumerate_tautomers molecule max_tautomers toolkit with
  | Return tautomers =>
      if bool_decide (length tautomers = 0%nat)
      then ComponentResult.add_molecule result molecule
      else foldl ComponentResult.add_molecule result tautomers
  | Raise _ => ComponentResult.filter_molecule result molecule
  end.

(** [EnumerateStereoisomers._apply]: no check of the isomers; the input
    replaces them when [include_input] is set or none was found. *)
Definition stereoisomers_step (self : EnumerateStereoisomers)
    (toolkit : CacheValue)
    (result : ComponentResult Molecule) (molecule : Molecule)
    : ComponentResult Molecule :=
  match enumerate_stereoisomers molecule (undefined_only self) (max_isomers self)
          (rationalise self) toolkit with
  | Return isomers =>
      if bool_decide (length isomers = 0%nat) || include_input self
      then ComponentResult.add_molecule result molecule
      else foldl ComponentResult.add_molecule result isomers
  | Raise _ => ComponentResult.filter_molecule result molecule
  end.


End Loops.
End Legacy.

(** ** Invariants of a result *)

Section Invariants.
Context {Molecule : Type} {tk : MoleculeToolkit Molecule}.

(** every entry is stored under the identity of its molecule *)
Definition keyed (r : ComponentResult Molecule) : Prop :=
  (∀ k m, ComponentResult._molecules r !! k = Some m → identity m = k) ∧
  (∀ k m, ComponentResult._filtered r !! k = Some m → identity m = k).

(** no identity is both passed and filtered *)
Definition exclusive (r : ComponentResult Molecule) : Prop :=
  ComponentResult.passed_ids r ## ComponentResult.filtered_ids r.

(** the identities a result accounts for *)
Definition accounted (r : ComponentResult Molecule) : gset string :=
  ComponentResult.passed_ids r ∪ ComponentResult.filtered_ids r.

(** [r'] is [r] after some calls of [add_molecule] and [filter_molecule] *)
Inductive evolves (r : ComponentResult Molecule) : ComponentResult Molecule → Prop :=
| evolves_refl : evolves r r
| evolves_add r' m :
    evolves r r' → evolves r (ComponentResult.add_molecule r' m)
| evolves_filter r' m :
    evolves r r' → evolves r (ComponentResult.filter_molecule r' m).

(** Modelled from the spec: the filtered collection with its reasons.
    [filter_molecule] receives the molecule alone; the reason reported with
    it is the [fail_reason()] of the component. *)
Definition failures (self : CustomWorkflowComponent.t Molecule)
    (r : ComponentResult Molecule) : list (Molecule * string) :=
  (λ m, (m, CustomWorkflowComponent.fail_reason self)) <$> ComponentResult.filtered r.

End Invariants.

(** What becomes of a molecule [m] whose toolkit call raised, and of the
    rest of its batch, in the result [r]. *)
Definition failure_handled {Molecule : Type} {tk : MoleculeToolkit Molecule}
    {env : PythonEnv} (e : Enumerator.t) (v : CacheValue)
    (before after : list Molecule) (m : Molecule)
    (r : ComponentResult Molecule) : Prop :=
  identity m ∈ ComponentResult.filtered_ids r ∧
  (identity m ∉ ComponentResult.passed_ids r) ∧
  (∃ m', identity m' = identity m ∧
         (m', CustomWorkflowComponent.fail_reason (Enumerator.component e))
           ∈ failures (Enumerator.component e) r) ∧
  (∀ m', m' ∈ before ++ after → Enumerator.input_dropped e v m' = false →
         identity m' ∈ ComponentResult.passed_ids r ∨
         identity m' ∈ ComponentResult.filtered_ids r).

(** ** A small toolkit, for concrete runs *)

Module Toy.

Record Mol : Type := {
  smiles : string;
  n_conformers : nat;
}.

Definition mol (s : string) : Mol := {| smiles := s; n_conformers := 0 |}.

(** stereochemistry is undefined when the name starts with a question mark *)
Definition undefined_stereo (m : Mol) : bool := String.prefix "?" (smiles m).

Definition tautomers (m : Mol) (max_states : Z) (toolkit : CacheValue)
    : Outcome (list Mol) :=
  if String.eqb (smiles m) "keto" then
    Return (take (Z.to_nat max_states) [mol "enol-a"; mol "enol-b"; mol "enol-c"])
  else if String.eqb (smiles m) "radical" then
    Raise (ToolkitError "tautomer enumeration failed")
  else Return [].

Definition stereoisomers (m : Mol) (undefined_only : bool) (max_isomers : Z)
    (rationalise : bool) (toolkit : CacheValue) : Outcome (list Mol) :=
  if String.eqb (smiles m) "?CHFClBr" then
    Return (take (Z.to_nat max_isomers) [mol "(R)-CHFClBr"; mol "(S)-CHFClBr"])
  else if String.eqb (smiles m) "radical" then
    Raise (ToolkitError "stereoisomer enumeration failed")
  else Return [].

Definition protomers (m : Mol) (max_states : Z) : Outcome (list Mol) :=
  if String.eqb (smiles m) "acid" then Return (take (Z.to_nat max_states) [mol "base"])
  else if String.eqb (smiles m) "radical" then
    Raise (ToolkitError "protomer enumeration failed")
  else Return [].

Definition conformers (m : Mol) (n : Z) : Outcome Mol :=
  if String.eqb (smiles m) "strained" then
    Raise (ToolkitError "conformer generation failed")
  else Return {| smiles := smiles m; n_conformers := Z.to_nat n |}.

Definition merged (a b : Mol) : Mol :=
  {| smiles := smiles a; n_conformers := n_conformers a + n_conformers b |}.

Lemma merged_identity a b : smiles a = smiles b → smiles (merged a b) = smiles a.
Proof. reflexivity. Qed.

Lemma conformers_identity m n m' : conformers m n = Return m' → smiles m' = smiles m.
Proof.
  unfold conformers. destruct (String.eqb _ _); intros [= <-]; reflexivity.
Qed.

#[export] Instance toolkit : MoleculeToolkit Mol := {|
  identity := smiles;
  merge_conformers := merged;
  wrapper_init := λ _, Return ();
  enumerate_tautomers := tautomers;
  enumerate_stereoisomers := stereoisomers;
  enumerate_protomers := protomers;
  generate_conformers := conformers;
  check_missing_stereo := undefined_stereo;
  merge_conformers_identity := merged_identity;
  generate_conformers_identity := conformers_identity;
|}.

(** every package is installed *)
Definition env_all : PythonEnv :=
  {| importable := λ _, true; module_version := λ _, "1.0" |}.
(** neither provider is installed *)
Definition env_none : PythonEnv :=
  {| importable := λ m, negb (String.prefix "openeye" m || String.prefix "rdkit" m);
     module_version := λ _, "1.0" |}.
(** only RDKit is installed *)
Definition env_rdkit : PythonEnv :=
  {| importable := λ m, negb (String.prefix "openeye" m);
     module_version := λ _, "1.0" |}.

Definition world0 : CustomWorkflowComponent.World Mol :=
  {| CustomWorkflowComponent._cache := ∅; CustomWorkflowComponent.events := [] |}.

Definition tautomer_default : EnumerateTautomers.t :=
  {| EnumerateTautomers.toolkit := "openeye"; EnumerateTautomers.max_tautomers := 20 |}.
Definition stereo_default : EnumerateStereoisomers.t :=
  {| EnumerateStereoisomers.toolkit := "openeye";
     EnumerateStereoisomers.undefined_only := false;
     EnumerateStereoisomers.max_isomers := 20;
     EnumerateStereoisomers.rationalise := true |}.
Definition protomer_default : EnumerateProtomers.t :=
  {| EnumerateProtomers.toolkit := "openeye"; EnumerateProtomers.max_states := 10 |}.

(** [provenance()] with OpenEye selected, everything installed *)
Definition provenance_openeye : gmap string string :=
  <["openeye" := "1.0"]>
    {[ "openff-toolkit" := "1.0"; "openff-qcsubmit" := "1.0" ]}.

Definition openeye : CacheValue := ToolkitInstance OpenEyeToolkitWrapper.
Definition ready_cache : Cache := {[ "toolkit" := openeye ]}.
Definition no_openeye_cache : Cache := {[ "toolkit" := PyBool false ]}.

End Toy.

(** ** A component that does not catch, for concrete runs *)

Module Sample.
Import Toy.

Definition empty_result : ComponentResult Mol :=
  {| ComponentResult.component_name := "Fragile";
     ComponentResult.component_description := ∅;
     ComponentResult.component_provenance :=
       {[ "openff-toolkit" := "1.0"; "openff-qcsubmit" := "1.0" ]};
     ComponentResult.skip_unique_check := true;
     ComponentResult._molecules := ∅;
     ComponentResult._filtered := ∅ |}.

(** a subclass with basic settings whose [_apply] lets the exception of the
    toolkit through *)
Definition fragile_apply (cache : Cache) (molecules : list Mol)
    : Outcome (ComponentResult Mol) :=
  result ← CustomWorkflowComponent.create_result "Fragile" ∅
             (BasicSettings.provenance (env:=env_all))
             {| process_parallel := false; produces_duplicates := false |};
  foldl (λ acc molecule,
           result ← acc;
           tautomers ← enumerate_tautomers molecule 20 (PyBool true);
           Return (foldl ComponentResult.add_molecule result
                     (tautomers : list Mol)))
        (Return result) molecules.

Definition fragile : CustomWorkflowComponent.t Mol :=
  {| CustomWorkflowComponent.type := "Fragile";
     CustomWorkflowComponent.description := "Enumerate tautomers without a net.";
     CustomWorkflowComponent.fail_reason := "The toolkit raised.";
     CustomWorkflowComponent.properties :=
       {| process_parallel := false; produces_duplicates := false |};
     CustomWorkflowComponent.is_available := BasicSettings.is_available;
     CustomWorkflowComponent.provenance := BasicSettings.provenance (env:=env_all);
     CustomWorkflowComponent.dict := ∅;
     CustomWorkflowComponent._apply := fragile_apply;
     CustomWorkflowComponent._apply_init :=
       CustomWorkflowComponent.default_apply_init;
     CustomWorkflowComponent._apply_finalize :=
       CustomWorkflowComponent.default_apply_finalize |}.

End Sample.

(** ** Observing a run *)


(** * Properties *)

(** ** Facts about [ComponentResult] *)

Section ResultFacts.
Context {Molecule : Type} {tk : MoleculeToolkit Molecule}.
Implicit Types (r : ComponentResult Molecule) (m : Molecule) (l : list Molecule).
Import ComponentResult.

Lemma filtered_add r m : _filtered (add_molecule r m) = _filtered r.
Proof.
  unfold add_molecule.
  destruct (_filtered r !! identity m); [done|].
  destruct (_molecules r !! identity m); [|done].
  by destruct (skip_unique_check r).
Qed.

Lemma filtered_ids_add r m : filtered_ids (add_molecule r m) = filtered_ids r.
Proof. unfold filtered_ids. by rewrite filtered_add. Qed.

Lemma passed_ids_add r m :
  passed_ids (add_molecule r m) =
  if decide (identity m ∈ filtered_ids r) then passed_ids r
  else {[ identity m ]} ∪ passed_ids r.
Proof.
  unfold add_molecule, passed_ids, filtered_ids.
  destruct (_filtered r !! identity m) as [x|] eqn:Hf.
  - rewrite decide_True; [done|]. apply elem_of_dom; eauto.
  - rewrite decide_False; [|by apply not_elem_of_dom].
    destruct (_molecules r !! identity m) as [old|] eqn:Hp.
    + assert (Hin : identity m ∈ dom (_molecules r)) by (apply elem_of_dom; eauto).
      destruct (skip_unique_check r); simpl; [|rewrite dom_insert_L]; set_solver.
    + simpl. by rewrite dom_insert_L.
Qed.

Lemma passed_ids_filter r m :
  passed_ids (filter_molecule r m) = passed_ids r ∖ {[ identity m ]}.
Proof. unfold passed_ids, filter_molecule. simpl. by rewrite dom_delete_L. Qed.

Lemma filtered_ids_filter r m :
  filtered_ids (filter_molecule r m) = {[ identity m ]} ∪ filtered_ids r.
Proof.
  unfold filtered_ids, filter_molecule. simpl.
  destruct (_filtered r !! identity m) as [x|] eqn:Hf.
  - assert (Hin : identity m ∈ dom (_filtered r)) by (apply elem_of_dom; eauto).
    set_solver.
  - by rewrite dom_insert_L.
Qed.

Lemma skip_unique_check_add r m :
  skip_unique_check (add_molecule r m) = skip_unique_check r.
Proof.
  unfold add_molecule.
  destruct (_filtered r !! identity m); [done|].
  destruct (_molecules r !! identity m); [|done].
  by destruct (skip_unique_check r) eqn:E.
Qed.

Lemma exclusive_add r m : exclusive r → exclusive (add_molecule r m).
Proof.
  unfold exclusive. intros Hex. rewrite passed_ids_add, filtered_ids_add.
  case_decide; set_solver.
Qed.

Lemma exclusive_filter r m : exclusive r → exclusive (filter_molecule r m).
Proof.
  unfold exclusive. intros Hex.
  rewrite passed_ids_filter, filtered_ids_filter. set_solver.
Qed.

Lemma accounted_add r m : accounted (add_molecule r m) = {[ identity m ]} ∪ accounted r.
Proof.
  unfold accounted. rewrite passed_ids_add, filtered_ids_add.
  case_decide; set_solver.
Qed.

Lemma accounted_filter r m :
  accounted (filter_molecule r m) = {[ identity m ]} ∪ accounted r.
Proof.
  unfold accounted. rewrite passed_ids_filter, filtered_ids_filter.
  apply set_eq. intros k. destruct (decide (k = identity m)); set_solver.
Qed.

Lemma keyed_add r m : keyed r → keyed (add_molecule r m).
Proof.
  intros [Hp Hf]. unfold add_molecule.
  destruct (_filtered r !! identity m) eqn:Ef; [done|].
  destruct (_molecules r !! identity m) as [old|] eqn:Ep.
  - destruct (skip_unique_check r); [done|].
    split; simpl; [|done]. intros k x.
    destruct (decide (identity m = k)) as [<-|Hne].
    + rewrite lookup_insert_eq. intros [= <-].
      rewrite merge_conformers_identity; eauto.
    + rewrite lookup_insert_ne by done. apply Hp.
  - split; simpl; [|done]. intros k x.
    destruct (decide (identity m = k)) as [<-|Hne].
    + rewrite lookup_insert_eq. by intros [= <-].
    + rewrite lookup_insert_ne by done. apply Hp.
Qed.

Lemma keyed_filter r m : keyed r → keyed (filter_molecule r m).
Proof.
  intros [Hp Hf]. split; simpl.
  - intros k x Hk. apply lookup_delete_Some in Hk as [_ Hk]. eauto.
  - destruct (_filtered r !! identity m) eqn:Ef; [done|]. intros k x.
    destruct (decide (identity m = k)) as [<-|Hne].
    + rewrite lookup_insert_eq. by intros [= <-].
    + rewrite lookup_insert_ne by done. apply Hf.
Qed.

End ResultFacts.

Section Evolution.
Context {Molecule : Type} {tk : MoleculeToolkit Molecule}.
Implicit Types (r : ComponentResult Molecule) (m : Molecule) (l : list Molecule).
Import ComponentResult.

Lemma evolves_trans r1 r2 r3 : evolves r1 r2 → evolves r2 r3 → evolves r1 r3.
Proof. induction 2; eauto using @evolves. Qed.

Lemma evolves_foldl (f : ComponentResult Molecule → Molecule → ComponentResult Molecule) r l :
  (∀ r m, evolves r (f r m)) → evolves r (foldl f r l).
Proof.
  intros Hf. revert r. induction l as [|m l IH]; intros r; simpl.
  - constructor.
  - eapply evolves_trans; [apply Hf | apply IH].
Qed.

Lemma evolves_exclusive r r' : evolves r r' → exclusive r → exclusive r'.
Proof. induction 1; auto using exclusive_add, exclusive_filter. Qed.

Lemma evolves_keyed r r' : evolves r r' → keyed r → keyed r'.
Proof. induction 1; auto using keyed_add, keyed_filter. Qed.

Lemma evolves_accounted r r' : evolves r r' → accounted r ⊆ accounted r'.
Proof.
  induction 1; [done| |].
  - rewrite accounted_add. set_solver.
  - rewrite accounted_filter. set_solver.
Qed.

Lemma evolves_filtered_ids r r' : evolves r r' → filtered_ids r ⊆ filtered_ids r'.
Proof.
  induction 1; [done| |].
  - by rewrite filtered_ids_add.
  - rewrite filtered_ids_filter. set_solver.
Qed.

Lemma accounted_foldl_add r l :
  accounted (foldl add_molecule r l) = list_to_set (identity <$> l) ∪ accounted r.
Proof.
  revert r. induction l as [|m l IH]; intros r; simpl.
  - set_solver.
  - rewrite IH, accounted_add. set_solver.
Qed.

Lemma filtered_foldl_add r l : _filtered (foldl add_molecule r l) = _filtered r.
Proof.
  revert r. induction l as [|m l IH]; intros r; simpl; [done|].
  by rewrite IH, filtered_add.
Qed.

Lemma accounted_foldl_filter r l :
  accounted (foldl filter_molecule r l) = list_to_set (identity <$> l) ∪ accounted r.
Proof.
  revert r. induction l as [|m l IH]; intros r; simpl.
  - set_solver.
  - rewrite IH, accounted_filter. set_solver.
Qed.

Lemma filtered_ids_foldl_filter r l :
  filtered_ids (foldl filter_molecule r l) =
  list_to_set (identity <$> l) ∪ filtered_ids r.
Proof.
  revert r. induction l as [|m l IH]; intros r; simpl.
  - set_solver.
  - rewrite IH, filtered_ids_filter. set_solver.
Qed.

Lemma passed_ids_foldl_filter r l :
  passed_ids (foldl filter_molecule r l) =
  passed_ids r ∖ list_to_set (identity <$> l).
Proof.
  revert r. induction l as [|m l IH]; intros r; simpl.
  - set_solver.
  - rewrite IH, passed_ids_filter. set_solver.
Qed.

(** the identities of the materialised sequences are the keys *)
Lemma ids_of_values (mp : gmap string Molecule) :
  (∀ k m, mp !! k = Some m → identity m = k) →
  list_to_set (identity <$> (map_to_list mp).*2) =@{gset string} dom mp.
Proof.
  intros Hk. apply set_eq. intros k.
  rewrite elem_of_list_to_set, list_elem_of_fmap, elem_of_dom. split.
  - intros (m & -> & Hm). apply list_elem_of_fmap in Hm as ([k' m'] & -> & Hin).
    apply elem_of_map_to_list in Hin. simpl. rewrite (Hk _ _ Hin). eauto.
  - intros [m Hm]. exists m. split; [symmetry; eauto|].
    apply list_elem_of_fmap. exists (k, m). split; [done|].
    by apply elem_of_map_to_list.
Qed.

Lemma ids_molecules r :
  keyed r → list_to_set (identity <$> molecules r) = passed_ids r.
Proof. intros [Hp _]. by apply ids_of_values. Qed.

Lemma ids_filtered r :
  keyed r → list_to_set (identity <$> filtered r) = filtered_ids r.
Proof. intros [_ Hf]. by apply ids_of_values. Qed.

Lemma length_molecules r : length (molecules r) = size (_molecules r).
Proof. unfold molecules. by rewrite length_fmap, length_map_to_list. Qed.


End Evolution.

(** ** Facts about the dispatcher *)

Section Dispatcher.
Context {Molecule : Type} {tk : MoleculeToolkit Molecule}.
Implicit Types (r result work : ComponentResult Molecule) (m : Molecule).
Implicit Types (self : CustomWorkflowComponent.t Molecule).
Import ComponentResult CustomWorkflowComponent.

Lemma merge_evolves result work : evolves result (merge result work).
Proof.
  unfold merge. eapply evolves_trans.
  - apply evolves_foldl. intros. apply evolves_add, evolves_refl.
  - apply evolves_foldl. intros. apply evolves_filter, evolves_refl.
Qed.

Lemma merge_accounted result work :
  keyed work → accounted (merge result work) = accounted work ∪ accounted result.
Proof.
  intros Hk. unfold merge.
  rewrite accounted_foldl_filter, accounted_foldl_add.
  rewrite ids_molecules, ids_filtered by done. unfold accounted. set_solver.
Qed.

Lemma merge_filtered_ids result work :
  keyed work →
  filtered_ids (merge result work) = filtered_ids work ∪ filtered_ids result.
Proof.
  intros Hk. unfold merge. rewrite filtered_ids_foldl_filter.
  rewrite ids_filtered by done. unfold filtered_ids at 2.
  by rewrite filtered_foldl_add.
Qed.

Lemma run_sequential_collect self cache molecules result :
  (run_sequential self cache molecules result).1 =
  collect (work_list self cache molecules) result.
Proof.
  revert result. induction molecules as [|m ms IH]; intros result; simpl; [done|].
  destruct (_apply self cache [m]) as [work|e]; [|done].
  specialize (IH (merge result work)).
  destruct (run_sequential self cache ms (merge result work)). exact IH.
Qed.

Lemma collect_units self cache molecules result :
  (∀ m, m ∈ molecules → ∃ work, _apply self cache [m] = Return work ∧ keyed work) →
  ∃ r, collect (work_list self cache molecules) result = Return r ∧
       evolves result r ∧
       ∀ m work, m ∈ molecules → _apply self cache [m] = Return work →
                 accounted work ⊆ accounted r ∧ filtered_ids work ⊆ filtered_ids r.
Proof.
  revert result. induction molecules as [|m ms IH]; intros result Hunits; simpl.
  - exists result. split; [done|]. split; [constructor|]. intros ?? Hin.
    by apply elem_of_nil in Hin.
  - destruct (Hunits m) as (work & Hwork & Hk); [left|]. rewrite Hwork.
    destruct (IH (merge result work)) as (r & Hr & Hev & Hall).
    { intros m' Hin. apply Hunits. by right. }
    exists r. split; [done|]. split.
    { eapply evolves_trans; [apply merge_evolves | done]. }
    intros m' work' Hin Hwork'. apply elem_of_cons in Hin as [->|Hin]; [|eauto].
    rewrite Hwork in Hwork'. injection Hwork' as <-.
    split.
    + etrans; [|apply (evolves_accounted _ _ Hev)].
      rewrite merge_accounted by done. set_solver.
    + etrans; [|apply (evolves_filtered_ids _ _ Hev)].
      rewrite merge_filtered_ids by done. set_solver.
Qed.

(** Both branches of [apply] compute the same thing from the units. *)
Lemma apply_outcome self molecules processors verbose w result cache :
  _create_result self = Return result →
  _apply_init self result (_cache w) = Return cache →
  (apply self molecules processors verbose w).1 =
  (r ← collect (work_list self cache molecules) result;
   _ ← _apply_finalize self r cache;
   Return r).
Proof.
  intros Hc Hi. unfold apply. rewrite Hc, Hi.
  destruct (pool_requested processors && process_parallel (properties self)).
  - unfold run_pool.
    destruct (collect (work_list self cache molecules) result) as [r|e]; simpl; [|done].
    by destruct (_apply_finalize self r cache).
  - pose proof (run_sequential_collect self cache molecules result) as Hseq.
    destruct (run_sequential self cache molecules result) as [outcome evs].
    simpl in Hseq. rewrite <- Hseq.
    destruct outcome as [r|e]; simpl; [|done].
    by destruct (_apply_finalize self r cache).
Qed.

End Dispatcher.

(** ** Facts about the three components *)

Section EnumeratorFacts.
Context {Molecule : Type} {tk : MoleculeToolkit Molecule} {env : PythonEnv}.
Implicit Types (r result : ComponentResult Molecule) (m : Molecule).
Implicit Types (e : Enumerator.t) (v : CacheValue).
Import ComponentResult.
Local Arguments ToolkitValidator.getitem : simpl never.
Local Arguments ToolkitValidator.provenance : simpl never.

Lemma add_defined_evolves r m : evolves r (EnumerateStereoisomers.add_defined r m).
Proof.
  unfold EnumerateStereoisomers.add_defined.
  destruct (check_missing_stereo m); simpl; eauto using @evolves.
Qed.

Lemma rationalised_identity self m m' :
  EnumerateStereoisomers.rationalised self m = Return m' → identity m' = identity m.
Proof.
  unfold EnumerateStereoisomers.rationalised.
  destruct (EnumerateStereoisomers.rationalise self).
  - apply generate_conformers_identity.
  - by intros [= <-].
Qed.

Lemma step_evolves e v r m : evolves r (Enumerator.step e v r m).
Proof.
  destruct e as [self|self|self]; simpl.
  - unfold EnumerateTautomers.step.
    destruct (enumerate_tautomers _ _ _); [|eauto using @evolves].
    apply evolves_add, evolves_foldl. eauto using @evolves.
  - unfold EnumerateStereoisomers.step.
    destruct (enumerate_stereoisomers _ _ _ _ _); [|eauto using @evolves].
    destruct (EnumerateStereoisomers.rationalised self m).
    + eapply evolves_trans; [|apply add_defined_evolves].
      apply evolves_foldl, add_defined_evolves.
    + apply evolves_filter, evolves_foldl, add_defined_evolves.
  - destruct (truthy v); [|eauto using @evolves].
    unfold EnumerateProtomers.step.
    destruct (enumerate_protomers _ _); [|eauto using @evolves].
    apply evolves_add, evolves_foldl. eauto using @evolves.
Qed.

Lemma foldl_step_evolves e v r ms : evolves r (foldl (Enumerator.step e v) r ms).
Proof. apply evolves_foldl. intros. apply step_evolves. Qed.

Lemma in_accounted_add r m : identity m ∈ accounted (add_molecule r m).
Proof. rewrite accounted_add. set_solver. Qed.

Lemma in_filtered_filter r m : identity m ∈ filtered_ids (filter_molecule r m).
Proof. rewrite filtered_ids_filter. set_solver. Qed.

Lemma in_accounted_filter r m : identity m ∈ accounted (filter_molecule r m).
Proof. rewrite accounted_filter. set_solver. Qed.

(** unless the stereoisomer component drops it, the input is accounted for *)
Lemma step_accounts e v r m :
  Enumerator.input_dropped e v m = false →
  identity m ∈ accounted (Enumerator.step e v r m).
Proof.
  destruct e as [self|self|self]; simpl.
  - intros _. unfold EnumerateTautomers.step.
    destruct (enumerate_tautomers _ _ _);
      auto using in_accounted_add, in_accounted_filter.
  - unfold EnumerateStereoisomers.step.
    destruct (enumerate_stereoisomers _ _ _ _ _);
      [|auto using in_accounted_filter].
    destruct (EnumerateStereoisomers.rationalised self m) as [m'|] eqn:Hr;
      [|auto using in_accounted_filter].
    intros Hd. unfold EnumerateStereoisomers.add_defined. rewrite Hd. simpl.
    rewrite <- (rationalised_identity _ _ _ Hr). apply in_accounted_add.
  - intros _. destruct (truthy v); [|apply in_accounted_filter].
    unfold EnumerateProtomers.step.
    destruct (enumerate_protomers _ _);
      auto using in_accounted_add, in_accounted_filter.
Qed.

(** a molecule whose toolkit call raises is filtered *)
Lemma step_filters e v r m :
  Enumerator.transform_raises e v m = true →
  identity m ∈ filtered_ids (Enumerator.step e v r m) ∧
  Enumerator.step e v r m =
    filter_molecule
      (match e with
       | Enumerator.Stereoisomers self =>
           match enumerate_stereoisomers m
                   (EnumerateStereoisomers.undefined_only self)
                   (EnumerateStereoisomers.max_isomers self)
                   (EnumerateStereoisomers.rationalise self) v with
           | Return isomers => foldl EnumerateStereoisomers.add_defined r isomers
           | Raise _ => r
           end
       | _ => r
       end) m.
Proof.
  destruct e as [self|self|self]; simpl.
  - unfold EnumerateTautomers.step.
    destruct (enumerate_tautomers _ _ _); [done|].
    auto using in_filtered_filter.
  - unfold EnumerateStereoisomers.step.
    destruct (enumerate_stereoisomers _ _ _ _ _);
      [|auto using in_filtered_filter].
    destruct (EnumerateStereoisomers.rationalised self m); [done|].
    auto using in_filtered_filter.
  - destruct (truthy v); [|auto using in_filtered_filter].
    unfold EnumerateProtomers.step.
    destruct (enumerate_protomers _ _); [done|].
    auto using in_filtered_filter.
Qed.

Lemma create_result_fresh e prov :
  ToolkitValidator.provenance (Enumerator.toolkit e) = Return prov →
  CustomWorkflowComponent._create_result (Enumerator.component e) =
  Return (Enumerator.fresh e prov).
Proof.
  intros Hp. unfold CustomWorkflowComponent._create_result,
    CustomWorkflowComponent.create_result.
  destruct e as [self|self|self]; simpl in *; by rewrite Hp.
Qed.

Lemma fresh_keyed e prov : keyed (Enumerator.fresh e prov).
Proof. split; intros k m; simpl; by rewrite lookup_empty. Qed.

Lemma fresh_exclusive e prov : exclusive (Enumerator.fresh e prov).
Proof. unfold exclusive, passed_ids, filtered_ids. simpl. set_solver. Qed.

(** [_apply] runs the loop from a fresh result *)
Lemma apply_unfold e cache v prov ms :
  cache !! "toolkit" = Some v →
  ToolkitValidator.provenance (Enumerator.toolkit e) = Return prov →
  CustomWorkflowComponent._apply (Enumerator.component e) cache ms =
  Return (foldl (Enumerator.step e v) (Enumerator.fresh e prov) ms).
Proof.
  intros Hc Hp. pose proof (create_result_fresh e prov Hp) as Hf.
  unfold CustomWorkflowComponent._create_result in Hf.
  destruct e as [self|self|self]; simpl in *.
  - unfold EnumerateTautomers._apply, cache_getitem,
      EnumerateTautomers._create_result. rewrite Hc. simpl. by rewrite Hf.
  - unfold EnumerateStereoisomers._apply, cache_getitem,
      EnumerateStereoisomers._create_result. rewrite Hc. simpl. by rewrite Hf.
  - unfold EnumerateProtomers._apply, cache_getitem,
      EnumerateProtomers._create_result. rewrite Hf. simpl. rewrite Hc. simpl.
    destruct (truthy v) eqn:Hv; f_equal;
      generalize (Enumerator.fresh (Enumerator.Protomers self) prov);
      induction ms as [|m ms IH]; intros r; simpl; [done| |done|];
      rewrite Hv; apply IH.
Qed.

Lemma apply_init_unfold e v r cache :
  Enumerator.new_toolkit e = Return v →
  CustomWorkflowComponent._apply_init (Enumerator.component e) r cache =
  Return (<["toolkit" := v]> cache).
Proof.
  unfold Enumerator.new_toolkit.
  destruct e as [self|self|self]; simpl;
    [unfold EnumerateTautomers._apply_init
    |unfold EnumerateStereoisomers._apply_init
    |unfold EnumerateProtomers._apply_init];
    (destruct (ToolkitValidator.getitem _ _) as [wrapper|]; simpl; [|done]);
    (destruct (wrapper_init wrapper); simpl; [|done]);
    by intros [= <-].
Qed.

End EnumeratorFacts.

(** ** The partition of the inputs *)

Section Partition.
Context {Molecule : Type} {tk : MoleculeToolkit Molecule} {env : PythonEnv}.
Implicit Types (r result : ComponentResult Molecule) (m : Molecule).
Implicit Types (e : Enumerator.t) (v : CacheValue).
Import ComponentResult.

(** the units of an enumerator return, and their results are keyed *)
Lemma enumerator_units e v prov cache (ms : list Molecule) :
  cache !! "toolkit" = Some v →
  ToolkitValidator.provenance (Enumerator.toolkit e) = Return prov →
  ∀ m, m ∈ ms →
    ∃ work, CustomWorkflowComponent._apply (Enumerator.component e) cache [m] =
            Return work ∧ keyed work.
Proof.
  intros Hc Hp m _. eexists. split; [by apply apply_unfold|].
  eapply evolves_keyed; [apply foldl_step_evolves | apply fresh_keyed].
Qed.

(** [apply] of an enumerator returns once the result and the toolkit could
    be set up, whatever the toolkit does on the molecules *)
Lemma enumerator_apply e molecules processors verbose w prov v :
  ToolkitValidator.provenance (Enumerator.toolkit e) = Return prov →
  Enumerator.new_toolkit e = Return v →
  ∃ r, (CustomWorkflowComponent.apply (Enumerator.component e)
          molecules processors verbose w).1 = Return r ∧
       evolves (Enumerator.fresh e prov) r ∧
       ∀ m, m ∈ molecules →
         accounted (Enumerator.step e v (Enumerator.fresh e prov) m) ⊆ accounted r ∧
         filtered_ids (Enumerator.step e v (Enumerator.fresh e prov) m) ⊆ filtered_ids r.
Proof.
  intros Hp Hv.
  set (cache := <["toolkit" := v]> (CustomWorkflowComponent._cache w)).
  assert (Hc : cache !! "toolkit" = Some v) by apply lookup_insert_eq.
  destruct (collect_units (Enumerator.component e) cache molecules
              (Enumerator.fresh e prov)) as (r & Hr & Hev & Hall).
  { intros m Hin. by eapply enumerator_units. }
  exists r. split; [|split; [done|]].
  - erewrite apply_outcome;
      [|by apply create_result_fresh|by apply apply_init_unfold].
    fold cache. rewrite Hr. by destruct e.
  - intros m Hin. apply (Hall m); [done|].
    by rewrite (apply_unfold e cache v prov [m]).
Qed.

(** C1 (amended).  Once [apply] of one of the three enumerators has set up
    its result and toolkit it returns a result in which no identity is both
    passed and filtered; every supplied molecule is passed or filtered, except
    that the stereoisomer component leaves out an input whose toolkit calls
    succeed and whose stereochemistry is undefined. *)
Theorem apply_partitions_inputs e molecules processors verbose w prov v :
  ToolkitValidator.provenance (Enumerator.toolkit e) = Return prov →
  Enumerator.new_toolkit e = Return v →
  ∃ r, (CustomWorkflowComponent.apply (Enumerator.component e)
          molecules processors verbose w).1 = Return r ∧
       (∀ k, ¬ (k ∈ passed_ids r ∧ k ∈ filtered_ids r)) ∧
       (∀ m, m ∈ molecules → Enumerator.input_dropped e v m = false →
             identity m ∈ passed_ids r ∨ identity m ∈ filtered_ids r) ∧
       ((∀ self, e ≠ Enumerator.Stereoisomers self) →
        ∀ m, m ∈ molecules →
             identity m ∈ passed_ids r ∨ identity m ∈ filtered_ids r).
Proof.
  intros Hp Hv.
  destruct (enumerator_apply e molecules processors verbose w prov v Hp Hv)
    as (r & Hr & Hev & Hall).
  assert (Hacc : ∀ m, m ∈ molecules → Enumerator.input_dropped e v m = false →
                      identity m ∈ passed_ids r ∨ identity m ∈ filtered_ids r).
  { intros m Hin Hd. apply elem_of_union. apply (Hall m Hin).
    by apply step_accounts. }
  exists r. split; [done|]. split; [|split; [done|]].
  - pose proof (evolves_exclusive _ _ Hev (fresh_exclusive e prov)) as Hex.
    unfold exclusive in Hex. set_solver.
  - intros Hns m Hin. apply Hacc; [done|].
    destruct e as [self|self|self]; [done| |done]. by destruct (Hns self).
Qed.

End Partition.

(** ** Counting the entries of a result *)

Section Counting.
Context {Molecule : Type} {tk : MoleculeToolkit Molecule} {env : PythonEnv}.
Implicit Types (r result : ComponentResult Molecule) (m : Molecule).
Implicit Types (l : list Molecule).
Import ComponentResult.
Local Arguments ToolkitValidator.provenance : simpl never.

Lemma passed_ids_foldl_add r l :
  _filtered r = ∅ →
  passed_ids (foldl add_molecule r l) = list_to_set (identity <$> l) ∪ passed_ids r.
Proof.
  intros Hf. pose proof (accounted_foldl_add r l) as Ha.
  unfold accounted, filtered_ids in Ha.
  rewrite filtered_foldl_add, Hf, dom_empty_L in Ha. set_solver.
Qed.


Lemma size_ids l :
  NoDup (identity <$> l) →
  size (list_to_set (identity <$> l) : gset string) = length l.
Proof. intros Hnd. by rewrite size_list_to_set, length_fmap. Qed.

Lemma length_molecules_ids r : length (molecules r) = size (passed_ids r).
Proof. rewrite length_molecules. unfold passed_ids. by rewrite size_dom. Qed.


Lemma filtered_nil r : _filtered r = ∅ → filtered r = [].
Proof. intros Hf. unfold filtered. by rewrite Hf, map_to_list_empty. Qed.


(** C2.  When the toolkit returns the tautomers of a molecule, [_apply] of
    the tautomer component passes every tautomer and the input molecule as
    well, and filters nothing; with [max_tautomers = 20] and three tautomers
    returned, of identities distinct from each other and from the input,
    [passed] has four entries. *)
Theorem tautomers_pass_with_input
    (self : EnumerateTautomers.t) cache v prov molecule tautomers :
  cache !! "toolkit" = Some v →
  ToolkitValidator.provenance (EnumerateTautomers.toolkit self) = Return prov →
  enumerate_tautomers molecule (EnumerateTautomers.max_tautomers self) v =
    Return tautomers →
  ∃ result,
    EnumerateTautomers._apply self cache [molecule] = Return result ∧
    identity molecule ∈ passed_ids result ∧
    (∀ t, t ∈ tautomers → identity t ∈ passed_ids result) ∧
    filtered result = [] ∧
    (NoDup (identity <$> tautomers ++ [molecule]) →
     length (molecules result) = S (length tautomers)) ∧
    (EnumerateTautomers.max_tautomers self = 20 → length tautomers = 3%nat →
     NoDup (identity <$> tautomers ++ [molecule]) →
     length (molecules result) = 4%nat).
Proof.
  intros Hc Hp Ht.
  pose proof (apply_unfold (Enumerator.Tautomers self) cache v prov [molecule] Hc Hp)
    as Happ.
  simpl in Happ. unfold EnumerateTautomers.step in Happ. rewrite Ht in Happ.
  set (r0 := Enumerator.fresh (Enumerator.Tautomers self) prov) in *.
  eexists. split; [exact Happ|].
  change (add_molecule (foldl add_molecule r0 tautomers) molecule)
    with (foldl add_molecule (foldl add_molecule r0 tautomers) [molecule]).
  rewrite <- foldl_app.
  assert (Hids : passed_ids (foldl add_molecule r0 (tautomers ++ [molecule])) =
                 list_to_set (identity <$> tautomers ++ [molecule])).
  { rewrite passed_ids_foldl_add by done. unfold passed_ids. simpl.
    rewrite dom_empty_L. set_solver. }
  assert (Hlen : NoDup (identity <$> tautomers ++ [molecule]) →
                 length (molecules (foldl add_molecule r0 (tautomers ++ [molecule]))) =
                 S (length tautomers)).
  { intros Hnd. rewrite length_molecules_ids, Hids, size_ids by done.
    rewrite length_app. simpl. lia. }
  rewrite Hids. repeat split.
  - apply elem_of_list_to_set, list_elem_of_fmap. exists molecule.
    split; [done|]. apply elem_of_app. right. by left.
  - intros t Hin. apply elem_of_list_to_set, list_elem_of_fmap. exists t.
    split; [done|]. apply elem_of_app. by left.
  - apply filtered_nil. by rewrite filtered_foldl_add.
  - exact Hlen.
  - intros _ H3 Hnd. rewrite Hlen by done. by rewrite H3.
Qed.



End Counting.

(** ** Failures of the toolkit *)

Section Failures.
Context {Molecule : Type} {tk : MoleculeToolkit Molecule} {env : PythonEnv}.
Implicit Types (r result : ComponentResult Molecule) (m : Molecule).
Implicit Types (e : Enumerator.t) (v : CacheValue).
Import ComponentResult.

(** every molecule of a batch gets its turn in the loop *)
Lemma foldl_step_member e v r0 (ms : list Molecule) m :
  m ∈ ms →
  ∃ r', evolves (Enumerator.step e v r' m) (foldl (Enumerator.step e v) r0 ms).
Proof.
  revert r0. induction ms as [|m0 ms IH]; intros r0 Hin.
  - by apply elem_of_nil in Hin.
  - apply elem_of_cons in Hin as [->|Hin]; simpl.
    + exists r0. apply foldl_step_evolves.
    + apply IH, Hin.
Qed.

(** a filtered identity is reported with the static reason of the component *)
Lemma failure_reported (self : CustomWorkflowComponent.t Molecule) r m :
  keyed r → identity m ∈ filtered_ids r →
  ∃ m', identity m' = identity m ∧
        (m', CustomWorkflowComponent.fail_reason self) ∈ failures self r.
Proof.
  intros [_ Hk] Hin. unfold filtered_ids in Hin.
  apply elem_of_dom in Hin as [m' Hm'].
  exists m'. split; [by apply Hk|].
  unfold failures. apply list_elem_of_fmap. exists m'. split; [done|].
  unfold filtered. apply list_elem_of_fmap. exists (identity m, m').
  split; [done|]. by apply elem_of_map_to_list.
Qed.

(** C3.  Whatever exception the toolkit raises on a molecule, [_apply] of an
    enumerator returns: the molecule is in [filtered], not in [passed], and is
    reported with the [fail_reason()] of the component; the other molecules
    of the batch are processed all the same.  So does [apply]. *)
Theorem toolkit_exception_is_filtered
    e cache v prov (before after : list Molecule) molecule processors verbose w :
  ToolkitValidator.provenance (Enumerator.toolkit e) = Return prov →
  Enumerator.new_toolkit e = Return v →
  cache !! "toolkit" = Some v →
  Enumerator.transform_raises e v molecule = true →
  (∃ result,
     CustomWorkflowComponent._apply (Enumerator.component e) cache
       (before ++ molecule :: after) = Return result ∧
     failure_handled e v before after molecule result) ∧
  (∃ result,
     (CustomWorkflowComponent.apply (Enumerator.component e)
        (before ++ molecule :: after) processors verbose w).1 = Return result ∧
     failure_handled e v before after molecule result).
Proof.
  intros Hp Hv Hc Hraise.
  set (r0 := Enumerator.fresh e prov).
  assert (Hin : molecule ∈ before ++ molecule :: after).
  { apply elem_of_app. right. by left. }
  assert (Hsub : ∀ m', m' ∈ before ++ after → m' ∈ before ++ molecule :: after).
  { intros m' Hm'. apply elem_of_app in Hm' as [?|?]; apply elem_of_app;
      [by left|right; by right]. }
  assert (Hgen : ∀ r, evolves r0 r →
            (∀ m', m' ∈ before ++ molecule :: after → ∃ r',
               accounted (Enumerator.step e v r' m') ⊆ accounted r ∧
               filtered_ids (Enumerator.step e v r' m') ⊆ filtered_ids r) →
            failure_handled e v before after molecule r).
  { intros r Hev Hall.
    pose proof (evolves_exclusive _ _ Hev (fresh_exclusive e prov)) as Hex.
    pose proof (evolves_keyed _ _ Hev (fresh_keyed e prov)) as Hk.
    assert (Hf : identity molecule ∈ filtered_ids r).
    { destruct (Hall molecule Hin) as (r' & _ & Hfs). apply Hfs.
      by apply step_filters. }
    unfold failure_handled. split; [done|]. split; [|split].
    - unfold exclusive in Hex. set_solver.
    - by apply failure_reported.
    - intros m' Hm' Hd. destruct (Hall m' (Hsub m' Hm')) as (r' & Hacc & _).
      apply elem_of_union, Hacc. by apply step_accounts. }
  split.
  - eexists. split; [by apply apply_unfold|]. fold r0. apply Hgen.
    + apply foldl_step_evolves.
    + intros m' Hm'.
      destruct (foldl_step_member e v r0 _ m' Hm') as (r' & Hev).
      exists r'. split;
        [by apply evolves_accounted | by apply evolves_filtered_ids].
  - destruct (enumerator_apply e (before ++ molecule :: after)
                processors verbose w prov v Hp Hv) as (r & Hr & Hev & Hall).
    exists r. split; [done|]. apply Hgen; [done|].
    intros m' Hm'. exists r0. by apply Hall.
Qed.

End Failures.

(** ** Stereoisomers *)

Section Stereo.
Context {Molecule : Type} {tk : MoleculeToolkit Molecule} {env : PythonEnv}.
Implicit Types (r result : ComponentResult Molecule) (m : Molecule).
Implicit Types (l : list Molecule).
Import ComponentResult.
Local Arguments ToolkitValidator.provenance : simpl never.

Lemma foldl_add_defined r l :
  foldl EnumerateStereoisomers.add_defined r l =
  foldl add_molecule r (filter (λ i, check_missing_stereo i = false) l).
Proof.
  revert r. induction l as [|i l IH]; intros r; simpl; [done|].
  unfold EnumerateStereoisomers.add_defined at 2.
  destruct (check_missing_stereo i) eqn:Hi; simpl.
  - rewrite filter_cons_False by (rewrite Hi; done). apply IH.
  - rewrite filter_cons_True by done. simpl. apply IH.
Qed.

Lemma add_defined_eq r m :
  EnumerateStereoisomers.add_defined r m =
  if check_missing_stereo m then r else add_molecule r m.
Proof.
  unfold EnumerateStereoisomers.add_defined. by destruct (check_missing_stereo m).
Qed.

Lemma elem_of_defined_ids l k :
  k ∈ (list_to_set (identity <$> filter (λ i, check_missing_stereo i = false) l)
        : gset string) ↔
  ∃ i, i ∈ l ∧ check_missing_stereo i = false ∧ identity i = k.
Proof.
  rewrite elem_of_list_to_set, list_elem_of_fmap. split.
  - intros (i & -> & Hi). apply list_elem_of_filter in Hi as [? ?]. eauto.
  - intros (i & Hi & Hc & <-). exists i. split; [done|].
    by apply list_elem_of_filter.
Qed.

Lemma passed_ids_defined r l :
  _filtered r = ∅ → _molecules r = ∅ → ∀ k,
  k ∈ passed_ids (foldl EnumerateStereoisomers.add_defined r l) ↔
  ∃ i, i ∈ l ∧ check_missing_stereo i = false ∧ identity i = k.
Proof.
  intros Hf Hm k. rewrite foldl_add_defined, passed_ids_foldl_add by done.
  rewrite <- elem_of_defined_ids. unfold passed_ids. rewrite Hm, dom_empty_L.
  set_solver.
Qed.

Lemma filtered_defined r l :
  _filtered (foldl EnumerateStereoisomers.add_defined r l) = _filtered r.
Proof. rewrite foldl_add_defined. apply filtered_foldl_add. Qed.

(** C7.  When the toolkit returns the isomers of a molecule, [_apply] of the
    stereoisomer component passes exactly the isomers that
    [check_missing_stereo] finds fully defined; the others go nowhere, not
    even to [filtered].  With [rationalise] set, conformers are generated for
    the input first (a failure of that filters the input), and the input is
    passed too if it is fully defined. *)
Theorem stereoisomers_checked
    (self : EnumerateStereoisomers.t) cache v prov molecule isomers :
  cache !! "toolkit" = Some v →
  ToolkitValidator.provenance (EnumerateStereoisomers.toolkit self) = Return prov →
  enumerate_stereoisomers molecule
    (EnumerateStereoisomers.undefined_only self)
    (EnumerateStereoisomers.max_isomers self)
    (EnumerateStereoisomers.rationalise self) v = Return isomers →
  ∃ result,
    EnumerateStereoisomers._apply self cache [molecule] = Return result ∧
    (∀ input,
       (if EnumerateStereoisomers.rationalise self
        then generate_conformers molecule 1 else Return molecule) = Return input →
       (∀ k, k ∈ passed_ids result ↔
             (∃ i, i ∈ isomers ∧ check_missing_stereo i = false ∧ identity i = k) ∨
             (check_missing_stereo input = false ∧ k = identity molecule)) ∧
       filtered result = []) ∧
    (∀ exc,
       EnumerateStereoisomers.rationalise self = true →
       generate_conformers molecule 1 = Raise exc →
       filtered_ids result = {[ identity molecule ]} ∧
       (∀ k, k ∈ passed_ids result ↔
             (∃ i, i ∈ isomers ∧ check_missing_stereo i = false ∧ identity i = k) ∧
             k ≠ identity molecule)).
Proof.
  intros Hc Hp He.
  pose proof (apply_unfold (Enumerator.Stereoisomers self) cache v prov [molecule] Hc Hp)
    as Happ.
  simpl in Happ. unfold EnumerateStereoisomers.step in Happ. rewrite He in Happ.
  set (r0 := Enumerator.fresh (Enumerator.Stereoisomers self) prov) in *.
  eexists. split; [exact Happ|]. split.
  - intros input Hin.
    pose proof (rationalised_identity self molecule input Hin) as Hid.
    unfold EnumerateStereoisomers.rationalised. rewrite Hin.
    rewrite (add_defined_eq _ input).
    destruct (check_missing_stereo input) eqn:Hi; split.
    + intros k. rewrite passed_ids_defined by done. naive_solver.
    + apply filtered_nil. by rewrite filtered_defined.
    + intros k. rewrite passed_ids_add. rewrite decide_False.
      * rewrite elem_of_union, elem_of_singleton, passed_ids_defined by done.
        rewrite Hid. naive_solver.
      * unfold filtered_ids. rewrite filtered_defined. simpl.
        rewrite dom_empty_L. set_solver.
    + apply filtered_nil. by rewrite filtered_add, filtered_defined.
  - intros exc Hr Hg.
    unfold EnumerateStereoisomers.rationalised. rewrite Hr, Hg. split.
    + rewrite filtered_ids_filter. unfold filtered_ids.
      rewrite filtered_defined. simpl. rewrite dom_empty_L. set_solver.
    + intros k. rewrite passed_ids_filter, elem_of_difference, elem_of_singleton.
      by rewrite passed_ids_defined.
Qed.

End Stereo.

(** ** The execution mode of [apply] *)

Section Dispatch.
Context {Molecule : Type} {tk : MoleculeToolkit Molecule}.
Implicit Types (r result : ComponentResult Molecule) (m : Molecule).
Implicit Types (self : CustomWorkflowComponent.t Molecule).
Import ComponentResult CustomWorkflowComponent.


Lemma run_sequential_events self cache molecules result :
  ∃ ran, ran `prefix_of` molecules ∧
         (run_sequential self cache molecules result).2 = RanInCaller <$> ran.
Proof.
  revert result. induction molecules as [|m ms IH]; intros result; simpl.
  - by exists [].
  - destruct (_apply self cache [m]) as [work|e].
    + destruct (IH (merge result work)) as (ran & Hpre & Hev).
      destruct (run_sequential self cache ms (merge result work)) as [o evs].
      simpl in *. subst evs. exists (m :: ran). split; [|done].
      by apply prefix_cons.
    + exists [m]. split; [|done]. apply prefix_cons, prefix_nil.
Qed.

Lemma apply_events self molecules processors verbose w result cache :
  _create_result self = Return result →
  _apply_init self result (_cache w) = Return cache →
  events (apply self molecules processors verbose w).2 =
  events w ++
    (if pool_requested processors && process_parallel (properties self)
     then (run_pool self cache processors molecules result).2
     else (run_sequential self cache molecules result).2).
Proof.
  intros Hc Hi. unfold apply. rewrite Hc, Hi.
  destruct (pool_requested processors && process_parallel (properties self)).
  - unfold run_pool.
    destruct (collect (work_list self cache molecules) result) as [r|e]; [|done].
    by destruct (_apply_finalize self r cache).
  - destruct (run_sequential self cache molecules result) as [[r|e] evs]; [|done].
    by destruct (_apply_finalize self r cache).
Qed.


(** C6.  The pool branch and the sequential branch of [apply] return the same
    result, or raise the same exception: for a component that declares
    [process_parallel], a call that sends its units to the pool and a call
    that runs them in the caller yield the same passed identities and the
    same filtered identities. *)
Theorem pool_and_sequential_agree self molecules pooled serial verbose w :
  process_parallel (properties self) = true →
  pool_requested pooled = true →
  pool_requested serial = false →
  (apply self molecules pooled verbose w).1 =
    (apply self molecules serial verbose w).1 ∧
  (∀ cache result,
     (run_pool self cache pooled molecules result).1 =
     (run_sequential self cache molecules result).1) ∧
  (∀ rp rs,
     (apply self molecules pooled verbose w).1 = Return rp →
     (apply self molecules serial verbose w).1 = Return rs →
     passed_ids rp = passed_ids rs ∧ filtered_ids rp = filtered_ids rs) ∧
  (∀ result cache,
     _create_result self = Return result →
     _apply_init self result (_cache w) = Return cache →
     events (apply self molecules pooled verbose w).2 =
       events w ++ PoolOpened pooled :: (Submitted <$> molecules) ∧
     ∃ ran, ran `prefix_of` molecules ∧
            events (apply self molecules serial verbose w).2 =
              events w ++ (RanInCaller <$> ran)).
Proof.
  intros Hpp Hp Hs.
  assert (Heq : (apply self molecules pooled verbose w).1 =
                (apply self molecules serial verbose w).1).
  { destruct (_create_result self) as [result|e] eqn:Hc.
    - destruct (_apply_init self result (_cache w)) as [cache|e] eqn:Hi.
      + by rewrite !(apply_outcome _ _ _ _ _ _ _ Hc Hi).
      + unfold apply. by rewrite Hc, Hi.
    - unfold apply. by rewrite Hc. }
  split; [done|]. split; [|split].
  - intros cache result. by rewrite run_sequential_collect.
  - intros rp rs Hrp Hrs. rewrite Heq, Hrs in Hrp. by injection Hrp as <-.
  - intros result cache Hc Hi.
    rewrite !(apply_events _ _ _ _ _ _ _ Hc Hi). rewrite Hpp, Hp, Hs. simpl.
    split; [done|].
    destruct (run_sequential_events self cache molecules result)
      as (ran & Hpre & Hev).
    exists ran. split; [done|]. by rewrite Hev.
Qed.

Lemma evolves_skip_unique_check r r' :
  evolves r r' → skip_unique_check r' = skip_unique_check r.
Proof.
  induction 1; [done| |done]. by rewrite skip_unique_check_add.
Qed.

Lemma collect_evolves (units : list (Outcome (ComponentResult Molecule))) r r' :
  collect units r = Return r' → evolves r r'.
Proof.
  revert r. induction units as [|[work|e] units IH]; intros r; simpl.
  - intros [= <-]. constructor.
  - intros Hr. eapply evolves_trans; [apply merge_evolves | by apply IH].
  - done.
Qed.

(** C10 (amended).  [apply] starts from the result of [_create_result], which
    is empty and has [skip_unique_check = not produces_duplicates]: the
    uniqueness check is skipped exactly when the component does not produce
    duplicates, and the flag is the same in the result that [apply] returns.
    The three enumerators declare [produces_duplicates = True], so their
    results have [skip_unique_check = False]: the check runs. *)
Theorem unique_check_skipped_iff_no_duplicates self r :
  _create_result self = Return r →
  skip_unique_check r = negb (produces_duplicates (properties self)) ∧
  (skip_unique_check r = true ↔ produces_duplicates (properties self) = false) ∧
  _molecules r = ∅ ∧ _filtered r = ∅ ∧
  (∀ molecules processors verbose w r',
     (apply self molecules processors verbose w).1 = Return r' →
     evolves r r' ∧ skip_unique_check r' = skip_unique_check r) ∧
  (∀ (env : PythonEnv) (e : Enumerator.t),
     self = Enumerator.component e →
     produces_duplicates (properties self) = true ∧ skip_unique_check r = false).
Proof.
  intros Hc.
  assert (Hflag : skip_unique_check r = negb (produces_duplicates (properties self)) ∧
                  _molecules r = ∅ ∧ _filtered r = ∅).
  { pose proof Hc as Hc'. unfold _create_result, create_result in Hc'.
    destruct (provenance self) as [prov|]; simpl in Hc'; [|done].
    by injection Hc' as <-. }
  destruct Hflag as (Hflag & Hm & Hf). split; [done|]. split.
  { rewrite Hflag. by destruct (produces_duplicates (properties self)). }
  split; [done|]. split; [done|]. split;
    [|intros env e ->; rewrite Hflag; by destruct e].
  intros molecules processors verbose w r' Hr'.
  assert (Hev : evolves r r').
  { destruct (_apply_init self r (_cache w)) as [cache|e] eqn:Hi.
    - rewrite (apply_outcome _ _ _ _ _ _ _ Hc Hi) in Hr'.
      destruct (collect _ _) as [r1|] eqn:Hcol; simpl in Hr'; [|done].
      destruct (_apply_finalize self r1 cache); simpl in Hr'; [|done].
      injection Hr' as <-. by eapply collect_evolves.
    - unfold apply in Hr'. by rewrite Hc, Hi in Hr'. }
  split; [done|]. by apply evolves_skip_unique_check.
Qed.

End Dispatch.

(** ** Configuration and availability *)

Section Validation.
Context {Molecule : Type} {tk : MoleculeToolkit Molecule} {env : PythonEnv}.
Import ToolkitValidator.

Lemma append_assoc (a b c : string) : (a +:+ b) +:+ c = a +:+ b +:+ c.
Proof.
  induction a as [|x a IH]; [done|].
  change (String x ((a +:+ b) +:+ c) = String x (a +:+ b +:+ c)). by rewrite IH.
Qed.

Lemma append_nil_r (a : string) : a +:+ "" = a.
Proof.
  induction a as [|x a IH]; [done|].
  change (String x (a +:+ "") = String x a). by rewrite IH.
Qed.

Lemma occurs_in_refl needle : occurs_in needle needle.
Proof. exists "", "". by rewrite append_nil_r. Qed.

Lemma occurs_in_here needle after : occurs_in needle (needle +:+ after).
Proof. by exists "", after. Qed.

Lemma occurs_in_prefix needle text a :
  occurs_in needle text → occurs_in needle (a +:+ text).
Proof.
  intros (before & after & ->). exists (a +:+ before), after.
  by rewrite append_assoc.
Qed.

Lemma occurs_in_suffix needle text b :
  occurs_in needle text → occurs_in needle (text +:+ b).
Proof.
  intros (before & after & ->). exists before, (after +:+ b).
  by rewrite !append_assoc.
Qed.

Lemma repr_items_lists (names : list string) k :
  k ∈ names → occurs_in ("'" +:+ k +:+ "'") (repr_items names).
Proof.
  induction names as [|k0 names IH]; intros Hin.
  - by apply elem_of_nil in Hin.
  - apply elem_of_cons in Hin as [->|Hin].
    + destruct names as [|k1 names].
      * apply occurs_in_refl.
      * pose proof (occurs_in_here ("'" +:+ k0 +:+ "'")
                      (", " +:+ repr_items (k1 :: names))) as Hhere.
        rewrite !append_assoc in Hhere. exact Hhere.
    + destruct names as [|k1 names]; [by apply elem_of_nil in Hin|].
      change (repr_items (k0 :: k1 :: names))
        with ("'" +:+ k0 +:+ "', " +:+ repr_items (k1 :: names)).
      do 3 apply occurs_in_prefix. apply IH, Hin.
Qed.

Lemma contains_spec (toolkits : Registry) name :
  contains toolkits name = true ↔ name ∈ keys toolkits.
Proof.
  unfold contains. rewrite existsb_exists. split.
  - intros (k & Hin & Heq). apply String.eqb_eq in Heq as ->.
    by apply list_elem_of_In.
  - intros Hin. exists name. split; [by apply list_elem_of_In|].
    apply String.eqb_refl.
Qed.

(** C8.  The validator of [toolkit] returns a registered name unchanged and
    raises for any other name an error whose message lists the registered
    names; constructing a component with such a name raises that error, so a
    following [apply] is never reached and nothing is processed. *)
Theorem unknown_toolkit_rejected (toolkits : Registry) (toolkit : string) :
  (toolkit ∈ keys toolkits → _check_toolkit toolkits toolkit = Return toolkit) ∧
  (toolkit ∉ keys toolkits →
   ∃ msg,
     _check_toolkit toolkits toolkit = Raise (ValueError msg) ∧
     (∀ k, k ∈ keys toolkits → occurs_in ("'" +:+ k +:+ "'") msg) ∧
     (∀ kind (molecules : list Molecule) processors verbose w,
        toolkits = Enumerator.registry kind →
        Enumerator.new kind toolkit = Raise (ValidationError "toolkit" msg) ∧
        construct_and_apply (Enumerator.new kind toolkit)
          molecules processors verbose w
        = (Raise (ValidationError "toolkit" msg), w))).
Proof.
  unfold _check_toolkit. split; intros Hin.
  - apply contains_spec in Hin. by rewrite Hin.
  - assert (Hc : contains toolkits toolkit = false).
    { apply not_true_is_false. by rewrite contains_spec. }
    rewrite Hc. simpl. eexists. split; [done|]. split.
    + intros k Hk. do 4 apply occurs_in_prefix.
      apply occurs_in_suffix. unfold repr_keys.
      by apply occurs_in_prefix, occurs_in_suffix, repr_items_lists.
    + intros kind molecules processors verbose w ->.
      assert (Hnew : Enumerator.new kind toolkit =
                     Raise (ValidationError "toolkit"
                       ("The requested toolkit (" +:+ toolkit +:+
                        ") is not support by the OFFTK. " +:+
                        "Please chose from " +:+
                        repr_keys (Enumerator.registry kind) +:+ "."))).
      { destruct kind; unfold Enumerator.new, EnumerateTautomers.new,
          EnumerateStereoisomers.new, EnumerateProtomers.new, _check_toolkit;
          simpl in Hc; simpl; by rewrite Hc. }
      split; [exact Hnew|]. by rewrite Hnew.
Qed.

Lemma probe_no_raise (names : list string) :
  probe false names =
  if existsb provider_present names then Return true
  else Raise (ModuleNotFoundError both_missing_msg).
Proof.
  induction names as [|name names IH]; [done|].
  cbn [probe existsb]. unfold provider_present at 1, which_import.
  change ("openeye" +:+ ".oechem") with "openeye.oechem".
  change ("" +:+ "rdkit") with "rdkit".
  destruct (String.eqb name "openeye") eqn:Hoe.
  - destruct (importable "openeye.oechem"); [done|]. cbn -[probe existsb].
    apply String.eqb_eq in Hoe as ->. exact IH.
  - destruct (String.eqb name "rdkit") eqn:Hrd; [|exact IH].
    destruct (importable "rdkit"); [done|]. exact IH.
Qed.

(** C9 (amended).  [is_available()] of a component with toolkit settings
    returns [True] when one of its registered providers can be imported and
    raises [ModuleNotFoundError] otherwise, never returning [False]: with a
    single registered provider the error carries the install instructions of
    that provider, with several it names both install sources.  Components
    with basic settings are always available. *)
Theorem is_available_true_or_raises (toolkits : Registry) :
  (existsb provider_present (keys toolkits) = true →
   is_available toolkits = Return true) ∧
  (existsb provider_present (keys toolkits) = false →
   ∃ msg,
     is_available toolkits = Raise (ModuleNotFoundError msg) ∧
     (∀ w, toolkits = [("openeye", w)] →
           msg = "Python module '.oechem' not found in envvar PYTHONPATH. "
                 +:+ openeye_msg) ∧
     (∀ w, toolkits = [("rdkit", w)] →
           msg = "Python module 'rdkit' not found in envvar PYTHONPATH. "
                 +:+ rdkit_msg) ∧
     (length toolkits ≠ 1%nat → msg = both_missing_msg)) ∧
  is_available toolkits ≠ Return false ∧
  BasicSettings.is_available = Return true.
Proof.
  assert (Hmany : length toolkits ≠ 1%nat →
                  is_available toolkits =
                  if existsb provider_present (keys toolkits) then Return true
                  else Raise (ModuleNotFoundError both_missing_msg)).
  { intros Hlen. unfold is_available. rewrite bool_decide_eq_false_2 by done.
    apply probe_no_raise. }
  destruct (decide (length toolkits = 1%nat)) as [Hone|Hlen].
  - destruct toolkits as [|[name w] [|]]; try done.
    unfold is_available. rewrite bool_decide_eq_true_2 by done.
    change (keys [(name, w)]) with [name].
    cbn [probe existsb]. unfold provider_present, which_import.
    change ("openeye" +:+ ".oechem") with "openeye.oechem".
    change ("" +:+ "rdkit") with "rdkit".
    destruct (String.eqb name "openeye") eqn:Hoe.
    + apply String.eqb_eq in Hoe as ->.
      change (String.eqb "openeye" "rdkit") with false.
      destruct (importable "openeye.oechem"); cbn -[String.append].
      * repeat split; try done.
      * repeat split; try done. intros _. eexists. split; [done|].
        repeat split; try done.
    + destruct (String.eqb name "rdkit") eqn:Hrd.
      * apply String.eqb_eq in Hrd as ->.
        destruct (importable "rdkit"); cbn -[String.append].
        -- repeat split; try done.
        -- repeat split; try done. intros _. eexists. split; [done|].
           repeat split; try done.
      * cbn -[String.append].
        repeat split; try done. intros _. eexists. split; [done|].
        repeat split; try done.
        -- intros ? [= -> _]. by rewrite String.eqb_refl in Hoe.
        -- intros ? [= -> _]. by rewrite String.eqb_refl in Hrd.
  - rewrite (Hmany Hlen).
    destruct (existsb provider_present (keys toolkits)).
    + repeat split; try done.
    + repeat split; try done. intros _. eexists. split; [done|].
      repeat split; try done; intros ? ->; by destruct Hlen.
Qed.

End Validation.

(** ** The earlier revision, and the reach of the protomer fallback *)

Section Revisions.
Context {Molecule : Type} {tk : MoleculeToolkit Molecule} {env : PythonEnv}.
Implicit Types (r result : ComponentResult Molecule) (m : Molecule).
Import ComponentResult.

(** In the earlier revision a molecule for which tautomers were found is not
    itself passed (unless a tautomer has its identity). *)
Lemma legacy_tautomers_leave_input_out max_tautomers v r m tautomers :
  _molecules r = ∅ → _filtered r = ∅ →
  enumerate_tautomers m max_tautomers v = Return tautomers →
  tautomers ≠ [] →
  identity m ∉ identity <$> tautomers →
  identity m ∉ accounted (Legacy.tautomers_step max_tautomers v r m).
Proof.
  intros Hm Hf He Hne Hnot. unfold Legacy.tautomers_step. rewrite He.
  rewrite bool_decide_eq_false_2 by (by destruct tautomers).
  rewrite accounted_foldl_add. unfold accounted, passed_ids, filtered_ids.
  rewrite Hm, Hf, dom_empty_L. rewrite elem_of_union, elem_of_list_to_set.
  set_solver.
Qed.

(** In the earlier revision the isomers are passed unchecked. *)
Lemma legacy_stereoisomers_unchecked (self : Legacy.EnumerateStereoisomers)
    v r m isomers i :
  _molecules r = ∅ → _filtered r = ∅ →
  enumerate_stereoisomers m (Legacy.undefined_only self) (Legacy.max_isomers self)
    (Legacy.rationalise self) v = Return isomers →
  Legacy.include_input self = false →
  i ∈ isomers →
  identity i ∈ passed_ids (Legacy.stereoisomers_step self v r m).
Proof.
  intros Hm Hf He Hinc Hin. unfold Legacy.stereoisomers_step. rewrite He, Hinc.
  rewrite bool_decide_eq_false_2 by (by destruct isomers; [apply elem_of_nil in Hin|]).
  simpl. rewrite passed_ids_foldl_add by done.
  apply elem_of_union_l, elem_of_list_to_set, list_elem_of_fmap. eauto.
Qed.

(** What [_apply_init] caches is an instance, which is true: within [apply]
    the protomer component never takes the branch for a missing provider.
    When the wrapper cannot be built, [apply] raises what the wrapper
    raised. *)
Lemma new_toolkit_truthy (e : Enumerator.t) v :
  Enumerator.new_toolkit e = Return v → truthy v = true.
Proof.
  unfold Enumerator.new_toolkit.
  destruct (ToolkitValidator.getitem _ _) as [wrapper|]; simpl; [|done].
  destruct (wrapper_init wrapper); simpl; [|done]. by intros [= <-].
Qed.

Lemma apply_raises_without_wrapper (self : EnumerateProtomers.t)
    (molecules : list Molecule) processors verbose w prov exc :
  ToolkitValidator.provenance (EnumerateProtomers.toolkit self) = Return prov →
  EnumerateProtomers.toolkit self = "openeye" →
  wrapper_init OpenEyeToolkitWrapper = Raise exc →
  CustomWorkflowComponent.apply (EnumerateProtomers.component self)
    molecules processors verbose w = (Raise exc, w).
Proof.
  intros Hp Ht Hw.
  pose proof (create_result_fresh (Enumerator.Protomers self) prov Hp) as Hc.
  unfold CustomWorkflowComponent.apply. simpl in Hc. rewrite Hc. simpl.
  unfold EnumerateProtomers._apply_init. rewrite Ht. simpl. by rewrite Hw.
Qed.

End Revisions.

(** ** Concrete runs *)

Section Runs.
Import Toy ComponentResult.
#[local] Existing Instance env_all.

(** Witness of C1: a batch with a molecule that has tautomers and one on
    which the toolkit raises. *)
Lemma apply_partitions_inputs_run :
  let e := Enumerator.Tautomers tautomer_default in
  let batch := [mol "keto"; mol "radical"] in
  ToolkitValidator.provenance (Enumerator.toolkit e) = Return provenance_openeye ∧
  Enumerator.new_toolkit e = Return openeye ∧
  ∃ r, (CustomWorkflowComponent.apply (Enumerator.component e)
          batch None true world0).1 = Return r ∧
       (∀ k, ¬ (k ∈ passed_ids r ∧ k ∈ filtered_ids r)) ∧
       (∀ m, m ∈ batch → identity m ∈ passed_ids r ∨ identity m ∈ filtered_ids r).
Proof.
  intros e batch.
  assert (Hp : ToolkitValidator.provenance (Enumerator.toolkit e) =
               Return provenance_openeye) by reflexivity.
  assert (Hv : Enumerator.new_toolkit e = Return openeye) by reflexivity.
  split; [exact Hp|]. split; [exact Hv|].
  destruct (apply_partitions_inputs e batch None true world0
              provenance_openeye openeye Hp Hv)
    as (r & Hr & Hex & _ & Hall).
  exists r. split; [exact Hr|]. split; [exact Hex|].
  apply Hall. intros self Heq. discriminate Heq.
Defined.

(** Counterexample to C1: the stereoisomer component on a molecule of
    undefined stereochemistry for which the toolkit finds no isomer.  [apply]
    returns, and the molecule is neither passed nor filtered. *)
Lemma stereo_input_in_neither :
  ∃ r, (CustomWorkflowComponent.apply
          (EnumerateStereoisomers.component stereo_default)
          [mol "?meso"] (Some 1) true world0).1 = Return r ∧
       molecules r = [] ∧ filtered r = [] ∧
       ¬ (identity (mol "?meso") ∈ passed_ids r ∨
          identity (mol "?meso") ∈ filtered_ids r).
Proof.
  eexists. split; [vm_compute; reflexivity|].
  split; [reflexivity|]. split; [reflexivity|].
  unfold passed_ids, filtered_ids.
  intros [Hin|Hin]; apply elem_of_dom in Hin as [x Hx]; vm_compute in Hx;
    discriminate Hx.
Qed.

(** Witness of C2: the scenario of the specification, a molecule with three
    tautomers under [max_tautomers = 20]. *)
Lemma tautomers_pass_with_input_run :
  let tautomers := [mol "enol-a"; mol "enol-b"; mol "enol-c"] in
  ready_cache !! "toolkit" = Some openeye ∧
  ToolkitValidator.provenance (EnumerateTautomers.toolkit tautomer_default)
    = Return provenance_openeye ∧
  enumerate_tautomers (mol "keto") 20 openeye = Return tautomers ∧
  ∃ result,
    EnumerateTautomers._apply tautomer_default ready_cache [mol "keto"]
      = Return result ∧
    length (molecules result) = 4%nat ∧ filtered result = [].
Proof.
  intros tautomers.
  assert (Hc : ready_cache !! "toolkit" = Some openeye) by reflexivity.
  assert (Hp : ToolkitValidator.provenance
                 (EnumerateTautomers.toolkit tautomer_default)
               = Return provenance_openeye) by reflexivity.
  assert (Ht : enumerate_tautomers (mol "keto")
                 (EnumerateTautomers.max_tautomers tautomer_default) openeye
               = Return tautomers) by reflexivity.
  split; [exact Hc|]. split; [exact Hp|]. split; [exact Ht|].
  destruct (tautomers_pass_with_input tautomer_default ready_cache openeye
              provenance_openeye (mol "keto") tautomers Hc Hp Ht)
    as (result & Happ & _ & _ & Hf & _ & H4).
  exists result. split; [exact Happ|]. split; [|exact Hf].
  apply H4; [reflexivity|reflexivity|]. compute_done.
Defined.

(** Witness of C3: the toolkit raises on the second molecule of three. *)
Lemma toolkit_exception_is_filtered_run :
  let e := Enumerator.Tautomers tautomer_default in
  ToolkitValidator.provenance (Enumerator.toolkit e) = Return provenance_openeye ∧
  Enumerator.new_toolkit e = Return openeye ∧
  ready_cache !! "toolkit" = Some openeye ∧
  Enumerator.transform_raises e openeye (mol "radical") = true ∧
  (∃ result,
     CustomWorkflowComponent._apply (Enumerator.component e) ready_cache
       ([mol "keto"] ++ mol "radical" :: [mol "water"]) = Return result ∧
     failure_handled e openeye [mol "keto"] [mol "water"] (mol "radical") result) ∧
  (∃ result,
     (CustomWorkflowComponent.apply (Enumerator.component e)
        ([mol "keto"] ++ mol "radical" :: [mol "water"]) None true world0).1
       = Return result ∧
     failure_handled e openeye [mol "keto"] [mol "water"] (mol "radical") result).
Proof.
  intros e.
  assert (Hp : ToolkitValidator.provenance (Enumerator.toolkit e) =
               Return provenance_openeye) by reflexivity.
  assert (Hv : Enumerator.new_toolkit e = Return openeye) by reflexivity.
  assert (Hc : ready_cache !! "toolkit" = Some openeye) by reflexivity.
  assert (Hr : Enumerator.transform_raises e openeye (mol "radical") = true)
    by reflexivity.
  split; [exact Hp|]. split; [exact Hv|]. split; [exact Hc|]. split; [exact Hr|].
  exact (toolkit_exception_is_filtered e ready_cache openeye provenance_openeye
           [mol "keto"] [mol "water"] (mol "radical") None true world0
           Hp Hv Hc Hr).
Defined.



(** Witness of C6: the same batch with all workers and with one. *)
Lemma pool_and_sequential_agree_run :
  let self := Enumerator.component (Enumerator.Tautomers tautomer_default) in
  let batch := [mol "keto"; mol "radical"; mol "keto"] in
  process_parallel (CustomWorkflowComponent.properties self) = true ∧
  CustomWorkflowComponent.pool_requested None = true ∧
  CustomWorkflowComponent.pool_requested (Some 1) = false ∧
  (CustomWorkflowComponent.apply self batch None true world0).1 =
  (CustomWorkflowComponent.apply self batch (Some 1) true world0).1.
Proof.
  intros self batch. split; [reflexivity|]. split; [reflexivity|].
  split; [reflexivity|].
  exact (proj1 (pool_and_sequential_agree self batch None (Some 1) true world0
                  eq_refl eq_refl eq_refl)).
Defined.

(** Witness of C7: of the isomers of a molecule both are fully defined, the
    input itself is not. *)
Lemma stereoisomers_checked_run :
  let isomers := [mol "(R)-CHFClBr"; mol "(S)-CHFClBr"] in
  ready_cache !! "toolkit" = Some openeye ∧
  ToolkitValidator.provenance (EnumerateStereoisomers.toolkit stereo_default)
    = Return provenance_openeye ∧
  enumerate_stereoisomers (mol "?CHFClBr") false 20 true openeye = Return isomers ∧
  ∃ result,
    EnumerateStereoisomers._apply stereo_default ready_cache [mol "?CHFClBr"]
      = Return result ∧
    (∀ k, k ∈ passed_ids result ↔ k = "(R)-CHFClBr" ∨ k = "(S)-CHFClBr") ∧
    filtered result = [].
Proof.
  intros isomers.
  assert (Hc : ready_cache !! "toolkit" = Some openeye) by reflexivity.
  assert (Hp : ToolkitValidator.provenance
                 (EnumerateStereoisomers.toolkit stereo_default)
               = Return provenance_openeye) by reflexivity.
  assert (He : enumerate_stereoisomers (mol "?CHFClBr")
                 (EnumerateStereoisomers.undefined_only stereo_default)
                 (EnumerateStereoisomers.max_isomers stereo_default)
                 (EnumerateStereoisomers.rationalise stereo_default) openeye
               = Return isomers) by reflexivity.
  split; [exact Hc|]. split; [exact Hp|]. split; [exact He|].
  destruct (stereoisomers_checked stereo_default ready_cache openeye
              provenance_openeye (mol "?CHFClBr") isomers Hc Hp He)
    as (result & Happ & Hok & _).
  destruct (Hok {| smiles := "?CHFClBr"; n_conformers := 1 |} eq_refl)
    as (Hpassed & Hfiltered).
  exists result. split; [exact Happ|]. split; [|exact Hfiltered].
  intros k. rewrite Hpassed. split.
  - intros [(i & Hi & _ & <-)|[Hundef _]]; [|discriminate Hundef].
    apply elem_of_cons in Hi as [->|Hi]; [by left|].
    apply elem_of_cons in Hi as [->|Hi]; [by right|].
    by apply elem_of_nil in Hi.
  - intros [->| ->]; left.
    + exists (mol "(R)-CHFClBr"). split; [by left|]. by split.
    + exists (mol "(S)-CHFClBr"). split; [right; by left|]. by split.
Defined.

(** Witness of C8: a name that is not registered. *)
Lemma unknown_toolkit_rejected_run :
  ("ambertools" ∉ ToolkitValidator.keys ToolkitValidator._toolkits) ∧
  ToolkitValidator._check_toolkit ToolkitValidator._toolkits "openeye"
    = Return "openeye" ∧
  ∃ msg,
    ToolkitValidator._check_toolkit ToolkitValidator._toolkits "ambertools"
      = Raise (ValueError msg) ∧
    occurs_in "'rdkit'" msg ∧ occurs_in "'openeye'" msg ∧
    construct_and_apply (Enumerator.new Enumerator.KTautomers "ambertools")
      [mol "keto"] None true world0
    = (Raise (ValidationError "toolkit" msg), world0).
Proof.
  assert (Hnot : "ambertools" ∉ ToolkitValidator.keys ToolkitValidator._toolkits).
  { intros Hin. apply elem_of_cons in Hin as [Heq|Hin]; [discriminate Heq|].
    apply elem_of_cons in Hin as [Heq|Hin]; [discriminate Heq|].
    by apply elem_of_nil in Hin. }
  split; [exact Hnot|]. split.
  - apply (proj1 (unknown_toolkit_rejected (Molecule:=Mol)
                    ToolkitValidator._toolkits "openeye")).
    right. by left.
  - destruct (proj2 (unknown_toolkit_rejected (Molecule:=Mol)
                       ToolkitValidator._toolkits "ambertools") Hnot)
      as (msg & Hmsg & Hlist & Hnew).
    exists msg. split; [exact Hmsg|]. split; [|split].
    + apply (Hlist "rdkit"). by left.
    + apply (Hlist "openeye"). right. by left.
    + apply (Hnew Enumerator.KTautomers). reflexivity.
Defined.

(** Witness of C9: only RDKit is installed; the default registry is
    available, the registry of the protomer component raises. *)
Lemma is_available_true_or_raises_run :
  existsb (ToolkitValidator.provider_present (env:=env_rdkit))
    (ToolkitValidator.keys ToolkitValidator._toolkits) = true ∧
  existsb (ToolkitValidator.provider_present (env:=env_rdkit))
    (ToolkitValidator.keys EnumerateProtomers._toolkits) = false ∧
  ToolkitValidator.is_available (env:=env_rdkit) ToolkitValidator._toolkits
    = Return true ∧
  ToolkitValidator.is_available (env:=env_rdkit) EnumerateProtomers._toolkits
    = Raise (ModuleNotFoundError
               ("Python module '.oechem' not found in envvar PYTHONPATH. "
                +:+ ToolkitValidator.openeye_msg)).
Proof.
  split; [reflexivity|]. split; [reflexivity|]. split.
  - exact (proj1 (is_available_true_or_raises (env:=env_rdkit)
                    ToolkitValidator._toolkits) eq_refl).
  - destruct (proj1 (proj2 (is_available_true_or_raises (env:=env_rdkit)
                              EnumerateProtomers._toolkits)) eq_refl)
      as (msg & Hmsg & Hoe & _).
    rewrite Hmsg. by rewrite (Hoe OpenEyeToolkitWrapper eq_refl).
Defined.

(** Counterexample to C9: with the two providers registered and neither
    installed, nothing is hard-required and yet [is_available] raises instead
    of returning a boolean. *)
Lemma is_available_raises_with_fallback :
  length ToolkitValidator._toolkits ≠ 1%nat ∧
  ToolkitValidator.is_available (env:=env_none) ToolkitValidator._toolkits
    = Raise (ModuleNotFoundError ToolkitValidator.both_missing_msg) ∧
  ¬ ∃ b : bool,
      ToolkitValidator.is_available (env:=env_none) ToolkitValidator._toolkits
      = Return b.
Proof.
  split; [discriminate|]. split; [reflexivity|].
  intros [b Hb]. vm_compute in Hb. discriminate Hb.
Qed.

(** Witness of C10: the result the tautomer component creates. *)
Lemma unique_check_skipped_iff_no_duplicates_run :
  let e := Enumerator.Tautomers tautomer_default in
  let r := Enumerator.fresh e provenance_openeye in
  CustomWorkflowComponent._create_result (Enumerator.component e) = Return r ∧
  skip_unique_check r = false ∧
  produces_duplicates
    (CustomWorkflowComponent.properties (Enumerator.component e)) = true.
Proof.
  intros e r.
  assert (Hc : CustomWorkflowComponent._create_result (Enumerator.component e)
               = Return r) by reflexivity.
  split; [exact Hc|].
  destruct (unique_check_skipped_iff_no_duplicates (Enumerator.component e) r Hc)
    as (_ & _ & _ & _ & _ & Henum).
  destruct (Henum env_all e eq_refl) as [Hdup Hskip]. by split.
Defined.

(** Counterexample to C10: the tautomer component declares
    [produces_duplicates = True], and the uniqueness check of the result it
    creates is not disabled. *)
Lemma duplicating_component_keeps_unique_check :
  let self := EnumerateTautomers.component tautomer_default in
  produces_duplicates (CustomWorkflowComponent.properties self) = true ∧
  ∃ r, CustomWorkflowComponent._create_result self = Return r ∧
       skip_unique_check r ≠ true.
Proof.
  intros self. split; [reflexivity|].
  exists (Enumerator.fresh (Enumerator.Tautomers tautomer_default)
            provenance_openeye).
  split; [reflexivity|]. discriminate.
Qed.

End Runs.

(** * Further properties of the code *)

(** ** Toolkit settings *)

Section Settings.
Context {Molecule : Type} {tk : MoleculeToolkit Molecule} {env : PythonEnv}.
Import ToolkitValidator.

(** X1.  The dictionary that [provenance()] returns holds the versions of
    the toolkit library and of this library, and the version of the backend
    when [toolkit] names one of the two backends; it has no other key. *)
Theorem provenance_records_versions (toolkit : string) (p : gmap string string) :
  provenance toolkit = Return p →
  p !! "openff-toolkit" = Some (module_version "openff.toolkit") ∧
  p !! "openff-qcsubmit" = Some (module_version "openff.qcsubmit") ∧
  (toolkit = "rdkit" ∨ toolkit = "openeye" →
   p !! toolkit = Some (module_version toolkit)) ∧
  (∀ k, k ∈ dom p ↔
        k = "openff-toolkit" ∨ k = "openff-qcsubmit" ∨
        (k = toolkit ∧ (toolkit = "rdkit" ∨ toolkit = "openeye"))).
Proof.
  unfold provenance, import_version.
  destruct (String.eqb toolkit "rdkit") eqn:Hrd.
  - apply String.eqb_eq in Hrd as ->.
    destruct (importable "rdkit"); simpl; [|done]. intros [= <-].
    split; [done|]. split; [done|]. split; [done|].
    intros k. rewrite !dom_insert_L, dom_singleton_L. set_solver.
  - apply String.eqb_neq in Hrd.
    destruct (String.eqb toolkit "openeye") eqn:Hoe.
    + apply String.eqb_eq in Hoe as ->.
      destruct (importable "openeye"); simpl; [|done]. intros [= <-].
      split; [done|]. split; [done|]. split; [done|].
      intros k. rewrite !dom_insert_L, dom_singleton_L. set_solver.
    + apply String.eqb_neq in Hoe. intros [= <-].
      split; [done|]. split; [done|]. split; [by intros [?|?]|].
      intros k. rewrite !dom_insert_L, dom_singleton_L. set_solver.
Qed.


Lemma getitem_returns_iff (toolkits : Registry) (name : string) :
  (∃ w, getitem toolkits name = Return w) ↔ name ∈ keys toolkits.
Proof.
  induction toolkits as [|[k w] toolkits IH].
  - split; [by intros [? ?]|]. intros Hin. by apply elem_of_nil in Hin.
  - change (keys ((k, w) :: toolkits)) with (k :: keys toolkits).
    rewrite elem_of_cons. cbn [getitem].
    destruct (String.eqb k name) eqn:Hk.
    + apply String.eqb_eq in Hk as ->. split; eauto.
    + apply String.eqb_neq in Hk. rewrite IH. naive_solver.
Qed.

(** X3.  The validator accepts exactly the names that the registry can
    resolve: [_check_toolkit] returns the name iff [_toolkits[name]] does not
    raise [KeyError]. *)
Theorem validator_accepts_what_resolves (toolkits : Registry) (name : string) :
  _check_toolkit toolkits name = Return name ↔
  ∃ w, getitem toolkits name = Return w.
Proof.
  rewrite getitem_returns_iff, <- contains_spec. unfold _check_toolkit.
  destruct (contains toolkits name); simpl; split; try done.
Qed.

(** X4.  The [_apply_init] of a component that was constructed with a
    validated [toolkit] never raises [KeyError]: it builds the wrapper
    registered under that name, stores it under the key [toolkit] and leaves
    every other entry of the cache as it was; it raises only what the
    wrapper's constructor raises. *)
Theorem constructed_component_caches_toolkit
    (kind : Enumerator.Kind) (toolkit : string)
    (self : CustomWorkflowComponent.t Molecule) :
  Enumerator.new kind toolkit = Return self →
  ∃ wrapper,
    getitem (Enumerator.registry kind) toolkit = Return wrapper ∧
    ∀ result cache,
      match wrapper_init wrapper with
      | Return _ =>
          ∃ cache',
            CustomWorkflowComponent._apply_init self result cache = Return cache' ∧
            cache' !! "toolkit" = Some (ToolkitInstance wrapper) ∧
            ∀ k, k ≠ "toolkit" → cache' !! k = cache !! k
      | Raise exc =>
          CustomWorkflowComponent._apply_init self result cache = Raise exc
      end.
Proof.
  intros Hnew.
  assert (Hin : toolkit ∈ keys (Enumerator.registry kind)).
  { apply contains_spec. destruct (contains _ _) eqn:Hc; [done|].
    destruct kind; unfold Enumerator.new, EnumerateTautomers.new,
      EnumerateStereoisomers.new, EnumerateProtomers.new, _check_toolkit in Hnew;
      simpl in Hc; rewrite Hc in Hnew; done. }
  pose proof Hin as Hc. apply contains_spec in Hc.
  apply getitem_returns_iff in Hin as [wrapper Hw].
  exists wrapper. split; [done|]. intros result cache.
  assert (Hinit : CustomWorkflowComponent._apply_init self result cache =
                  (_ ← wrapper_init wrapper;
                   Return (<["toolkit" := ToolkitInstance wrapper]> cache))).
  { destruct kind; unfold Enumerator.new, EnumerateTautomers.new,
      EnumerateStereoisomers.new, EnumerateProtomers.new, _check_toolkit in Hnew;
      simpl in Hc; rewrite Hc in Hnew; simpl in Hnew; injection Hnew as <-;
      simpl;
      [unfold EnumerateTautomers._apply_init
      |unfold EnumerateStereoisomers._apply_init
      |unfold EnumerateProtomers._apply_init];
      simpl in Hw; simpl; by rewrite Hw. }
  rewrite Hinit. destruct (wrapper_init wrapper); simpl; [|done].
  eexists. split; [done|]. split; [apply lookup_insert_eq|].
  intros k Hk. by apply lookup_insert_ne.
Qed.

(** X5.  The protomer component restricts its registry to OpenEye: it can be
    constructed with [toolkit="openeye"] only, while the tautomer component
    takes either backend. *)
Theorem protomers_take_openeye_only (toolkit : string) (n : Z) :
  returns (EnumerateProtomers.new toolkit n) = String.eqb toolkit "openeye" ∧
  returns (EnumerateTautomers.new toolkit n) =
    (String.eqb toolkit "rdkit" || String.eqb toolkit "openeye").
Proof.
  unfold EnumerateProtomers.new, EnumerateTautomers.new, _check_toolkit, contains.
  simpl. rewrite !orb_false_r. split.
  - by destruct (String.eqb toolkit "openeye").
  - by destruct (String.eqb toolkit "rdkit"), (String.eqb toolkit "openeye").
Qed.

(** X6.  The error of the validator names the rejected toolkit, in
    parentheses, and is raised only for a name that is not registered. *)
Theorem rejected_name_is_reported (toolkits : Registry) (name : string) exc :
  _check_toolkit toolkits name = Raise exc →
  (name ∉ keys toolkits) ∧
  ∃ msg, exc = ValueError msg ∧ occurs_in ("(" +:+ name +:+ ")") msg.
Proof.
  unfold _check_toolkit. destruct (contains toolkits name) eqn:Hc; simpl; [done|].
  intros [= <-]. split.
  - rewrite <- contains_spec. by rewrite Hc.
  - eexists. split; [done|].
    exists "The requested toolkit ",
      (" is not support by the OFFTK. " +:+
       "Please chose from " +:+ repr_keys toolkits +:+ ".").
    by rewrite !append_assoc.
Qed.

End Settings.

(** ** The life cycle of [apply] *)

Section Lifecycle.
Context {Molecule : Type} {tk : MoleculeToolkit Molecule}.
Implicit Types (r result : ComponentResult Molecule) (m : Molecule).
Implicit Types (self : CustomWorkflowComponent.t Molecule).
Import ComponentResult CustomWorkflowComponent.

Lemma collect_first_failure units_before exc units_after result :
  Forall (λ o, returns o = true) units_before →
  collect (units_before ++ Raise exc :: units_after) result = Raise exc.
Proof.
  revert result. induction units_before as [|[work|e] units IH];
    intros result Hall; simpl; [done| |].
  - apply IH. by inversion Hall.
  - inversion Hall as [|?? Hhead]. discriminate Hhead.
Qed.

Lemma run_sequential_first_failure self cache before m after exc result :
  Forall (λ m', returns (_apply self cache [m']) = true) before →
  _apply self cache [m] = Raise exc →
  run_sequential self cache (before ++ m :: after) result =
  (Raise exc, RanInCaller <$> before ++ [m]).
Proof.
  intros Hall Hm. revert result.
  induction before as [|m0 before IH]; intros result; simpl.
  - by rewrite Hm.
  - inversion Hall as [|?? Hhead Htail]; subst.
    destruct (_apply self cache [m0]) as [work|e]; [|discriminate Hhead].
    by rewrite (IH Htail).
Qed.

Lemma run_sequential_all_ran self cache molecules result r :
  (run_sequential self cache molecules result).1 = Return r →
  (run_sequential self cache molecules result).2 = RanInCaller <$> molecules.
Proof.
  revert result. induction molecules as [|m ms IH]; intros result; simpl; [done|].
  destruct (_apply self cache [m]) as [work|e]; [|done].
  specialize (IH (merge result work)).
  destruct (run_sequential self cache ms (merge result work)) as [o evs].
  simpl in *. intros Ho. by rewrite (IH Ho).
Qed.

(** X7.  When a unit raises, [apply] raises the same exception at the first
    such unit and skips [_apply_finalize], so the cache stays as
    [_apply_init] left it.  In the caller the later molecules are never run;
    with the pool every unit had already been submitted. *)
Theorem first_failing_unit_aborts
    self before m after processors verbose w result cache exc :
  _create_result self = Return result →
  _apply_init self result (_cache w) = Return cache →
  Forall (λ m', returns (_apply self cache [m']) = true) before →
  _apply self cache [m] = Raise exc →
  let out := apply self (before ++ m :: after) processors verbose w in
  out.1 = Raise exc ∧
  _cache out.2 = cache ∧
  events out.2 =
    events w ++
    (if pool_requested processors && process_parallel (properties self)
     then PoolOpened processors :: (Submitted <$> before ++ m :: after)
     else RanInCaller <$> before ++ [m]).
Proof.
  intros Hc Hi Hall Hm out. subst out. unfold apply. rewrite Hc, Hi.
  destruct (pool_requested processors && process_parallel (properties self)).
  - unfold run_pool, work_list. rewrite fmap_app, fmap_cons, Hm.
    rewrite collect_first_failure; [done|].
    by apply Forall_fmap.
  - by rewrite (run_sequential_first_failure _ _ _ _ _ exc).
Qed.

(** X8.  When [apply] returns a result without the pool, every molecule was
    run in the caller, once and in the order of the input. *)
Theorem sequential_success_runs_all
    self molecules processors verbose w r :
  pool_requested processors && process_parallel (properties self) = false →
  (apply self molecules processors verbose w).1 = Return r →
  events (apply self molecules processors verbose w).2 =
  events w ++ (RanInCaller <$> molecules).
Proof.
  intros Hmode. unfold apply.
  destruct (_create_result self) as [result|]; [|done].
  destruct (_apply_init self result (_cache w)) as [cache|]; [|done].
  rewrite Hmode.
  pose proof (run_sequential_all_ran self cache molecules result) as Hran.
  destruct (run_sequential self cache molecules result) as [[r'|e] evs]; [|done].
  simpl in Hran. rewrite (Hran r' eq_refl).
  by destruct (_apply_finalize self r' cache).
Qed.


End Lifecycle.

(** ** The enumerators under [apply] *)

Section EnumeratorRuns.
Context {Molecule : Type} {tk : MoleculeToolkit Molecule} {env : PythonEnv}.
Implicit Types (r result : ComponentResult Molecule) (m : Molecule).
Implicit Types (e : Enumerator.t) (v : CacheValue).
Import ComponentResult.
Local Arguments ToolkitValidator.getitem : simpl never.
Local Arguments ToolkitValidator.provenance : simpl never.

Lemma apply_init_eq e r cache :
  CustomWorkflowComponent._apply_init (Enumerator.component e) r cache =
  (v ← Enumerator.new_toolkit e; Return (<["toolkit" := v]> cache)).
Proof.
  unfold Enumerator.new_toolkit.
  destruct e as [self|self|self]; simpl;
    [unfold EnumerateTautomers._apply_init
    |unfold EnumerateStereoisomers._apply_init
    |unfold EnumerateProtomers._apply_init];
    (destruct (ToolkitValidator.getitem _ _) as [wrapper|]; simpl; [|done]);
    by destruct (wrapper_init wrapper).
Qed.

Lemma create_result_raises e exc :
  ToolkitValidator.provenance (Enumerator.toolkit e) = Raise exc →
  CustomWorkflowComponent._create_result (Enumerator.component e) = Raise exc.
Proof.
  intros Hp. unfold CustomWorkflowComponent._create_result,
    CustomWorkflowComponent.create_result.
  destruct e as [self|self|self]; simpl in *; by rewrite Hp.
Qed.

Lemma work_list_steps e cache v prov (ms : list Molecule) :
  cache !! "toolkit" = Some v →
  ToolkitValidator.provenance (Enumerator.toolkit e) = Return prov →
  CustomWorkflowComponent.work_list (Enumerator.component e) cache ms =
  (λ m, Return (Enumerator.step e v (Enumerator.fresh e prov) m)) <$> ms.
Proof.
  intros Hc Hp. unfold CustomWorkflowComponent.work_list.
  apply list_fmap_ext. intros i m _.
  by rewrite (apply_unfold e cache v prov [m]).
Qed.

(** the result of [apply], from what the setup returned *)
Lemma apply_enumerator_outcome e (ms : list Molecule) processors verbose w prov v :
  ToolkitValidator.provenance (Enumerator.toolkit e) = Return prov →
  Enumerator.new_toolkit e = Return v →
  (CustomWorkflowComponent.apply (Enumerator.component e) ms processors verbose w).1 =
  CustomWorkflowComponent.collect
    ((λ m, Return (Enumerator.step e v (Enumerator.fresh e prov) m)) <$> ms)
    (Enumerator.fresh e prov).
Proof.
  intros Hp Hv.
  erewrite apply_outcome;
    [|by apply create_result_fresh|by apply apply_init_unfold].
  rewrite (work_list_steps e _ v prov) by (done || apply lookup_insert_eq).
  destruct (CustomWorkflowComponent.collect _ _); [|done]. by destruct e.
Qed.

(** X10.  [apply] of an enumerator raises exactly when [provenance()] or the
    construction of the toolkit wrapper raises: no failure of the toolkit on
    a molecule makes it raise. *)
Theorem enumerator_apply_returns_iff_setup
    e (ms : list Molecule) processors verbose w :
  returns (CustomWorkflowComponent.apply (Enumerator.component e)
             ms processors verbose w).1 =
  returns (ToolkitValidator.provenance (Enumerator.toolkit e))
  && returns (Enumerator.new_toolkit e).
Proof.
  destruct (ToolkitValidator.provenance (Enumerator.toolkit e)) as [prov|exc] eqn:Hp.
  - destruct (Enumerator.new_toolkit e) as [v|exc] eqn:Hv.
    + destruct (enumerator_apply e ms processors verbose w prov v Hp Hv)
        as (r & -> & _). done.
    + unfold CustomWorkflowComponent.apply.
      rewrite (create_result_fresh e prov Hp), apply_init_eq, Hv. done.
  - unfold CustomWorkflowComponent.apply.
    by rewrite (create_result_raises e exc Hp).
Qed.

(** X11.  When [apply] of an enumerator raises, it raises what
    [provenance()] raised or, if that returned, what the construction of the
    wrapper raised; nothing was dispatched and the cache is untouched. *)
Theorem enumerator_apply_failure_leaves_world
    e (ms : list Molecule) processors verbose w exc :
  (CustomWorkflowComponent.apply (Enumerator.component e)
     ms processors verbose w).1 = Raise exc →
  (CustomWorkflowComponent.apply (Enumerator.component e)
     ms processors verbose w).2 = w ∧
  (ToolkitValidator.provenance (Enumerator.toolkit e) = Raise exc ∨
   returns (ToolkitValidator.provenance (Enumerator.toolkit e)) = true ∧
   Enumerator.new_toolkit e = Raise exc).
Proof.
  destruct (ToolkitValidator.provenance (Enumerator.toolkit e)) as [prov|exc'] eqn:Hp.
  - destruct (Enumerator.new_toolkit e) as [v|exc'] eqn:Hv.
    + destruct (enumerator_apply e ms processors verbose w prov v Hp Hv)
        as (r & -> & _). done.
    + unfold CustomWorkflowComponent.apply.
      rewrite (create_result_fresh e prov Hp), apply_init_eq, Hv. simpl.
      intros [= <-]. split; [done|]. by right.
  - unfold CustomWorkflowComponent.apply.
    rewrite (create_result_raises e exc' Hp). simpl.
    intros [= <-]. split; [done|]. by left.
Qed.

(** X12.  When [apply] of an enumerator returns, the cache is empty,
    whatever it held before, and the events record one run: the pool with
    every molecule submitted when [processors] is [None] or greater than
    one, else every molecule run in the caller. *)
Theorem enumerator_apply_success_world
    e (ms : list Molecule) processors verbose w r :
  (CustomWorkflowComponent.apply (Enumerator.component e)
     ms processors verbose w).1 = Return r →
  (CustomWorkflowComponent.apply (Enumerator.component e)
     ms processors verbose w).2 =
  {| CustomWorkflowComponent._cache := ∅;
     CustomWorkflowComponent.events :=
       CustomWorkflowComponent.events w ++
       (if CustomWorkflowComponent.pool_requested processors
        then CustomWorkflowComponent.PoolOpened processors ::
               (CustomWorkflowComponent.Submitted <$> ms)
        else CustomWorkflowComponent.RanInCaller <$> ms) |}.
Proof.
  unfold CustomWorkflowComponent.apply.
  destruct (CustomWorkflowComponent._create_result (Enumerator.component e))
    as [result|]; [|done].
  destruct (CustomWorkflowComponent._apply_init (Enumerator.component e) result
              (CustomWorkflowComponent._cache w)) as [cache|]; [|done].
  assert (Hpar : process_parallel
                   (CustomWorkflowComponent.properties (Enumerator.component e))
                 = true) by by destruct e.
  rewrite Hpar, andb_true_r.
  assert (Hfin : ∀ r' c, CustomWorkflowComponent._apply_finalize
                           (Enumerator.component e) r' c = Return ∅)
    by by destruct e.
  destruct (CustomWorkflowComponent.pool_requested processors).
  - unfold CustomWorkflowComponent.run_pool.
    destruct (CustomWorkflowComponent.collect _ _) as [r'|]; [|done].
    by rewrite Hfin.
  - pose proof (run_sequential_all_ran (Enumerator.component e) cache ms result)
      as Hran.
    destruct (CustomWorkflowComponent.run_sequential _ _ _ _) as [[r'|] evs];
      [|done].
    simpl in Hran. rewrite (Hran r' eq_refl). by rewrite Hfin.
Qed.

(** X13.  What [apply] of an enumerator returns or raises does not depend on
    the state it starts from, on [processors] or on [verbose]: a second run
    on the same input, from the state that the first run left, gives the
    result of the first. *)
Theorem enumerator_apply_rerun
    e (ms : list Molecule) processors verbose w processors' verbose' w' :
  (CustomWorkflowComponent.apply (Enumerator.component e)
     ms processors verbose w).1 =
  (CustomWorkflowComponent.apply (Enumerator.component e)
     ms processors' verbose' w').1 ∧
  (CustomWorkflowComponent.apply (Enumerator.component e) ms processors' verbose'
     (CustomWorkflowComponent.apply (Enumerator.component e)
        ms processors verbose w).2).1 =
  (CustomWorkflowComponent.apply (Enumerator.component e)
     ms processors verbose w).1.
Proof.
  assert (Hany : ∀ p1 b1 w1 p2 b2 w2,
    (CustomWorkflowComponent.apply (Enumerator.component e) ms p1 b1 w1).1 =
    (CustomWorkflowComponent.apply (Enumerator.component e) ms p2 b2 w2).1).
  { intros p1 b1 w1 p2 b2 w2.
    destruct (ToolkitValidator.provenance (Enumerator.toolkit e))
      as [prov|exc] eqn:Hp.
    - destruct (Enumerator.new_toolkit e) as [v|exc] eqn:Hv.
      + by rewrite !(apply_enumerator_outcome e ms _ _ _ prov v Hp Hv).
      + unfold CustomWorkflowComponent.apply.
        by rewrite (create_result_fresh e prov Hp), !apply_init_eq, Hv.
    - unfold CustomWorkflowComponent.apply.
      by rewrite (create_result_raises e exc Hp). }
  split; apply Hany.
Qed.

(** X14.  [_apply] called on a cache that [_apply_init] has not filled
    raises: the tautomer and the stereoisomer component raise
    [KeyError('toolkit')] before anything else; the protomer component
    creates its result first, so an error of [provenance()] comes before
    the [KeyError]. *)
Theorem apply_unit_without_init e cache (ms : list Molecule) :
  cache !! "toolkit" = None →
  CustomWorkflowComponent._apply (Enumerator.component e) cache ms =
  match e with
  | Enumerator.Protomers self =>
      match ToolkitValidator.provenance (EnumerateProtomers.toolkit self) with
      | Return _ => Raise (KeyError "toolkit")
      | Raise exc => Raise exc
      end
  | _ => Raise (KeyError "toolkit")
  end.
Proof.
  intros Hc. destruct e as [self|self|self]; simpl.
  - unfold EnumerateTautomers._apply, cache_getitem. by rewrite Hc.
  - unfold EnumerateStereoisomers._apply, cache_getitem. by rewrite Hc.
  - unfold EnumerateProtomers._apply, EnumerateProtomers._create_result,
      CustomWorkflowComponent.create_result, cache_getitem.
    destruct (ToolkitValidator.provenance _); simpl; [|done]. by rewrite Hc.
Qed.

(** X15.  Whatever the toolkit does, the only exceptions that leave [_apply]
    of an enumerator are [KeyError('toolkit')], for a cache without that
    key, and what [provenance()] raises. *)
Theorem only_setup_errors_leave_apply_unit e cache (ms : list Molecule) exc :
  CustomWorkflowComponent._apply (Enumerator.component e) cache ms = Raise exc →
  (exc = KeyError "toolkit" ∧ cache !! "toolkit" = None) ∨
  ToolkitValidator.provenance (Enumerator.toolkit e) = Raise exc.
Proof.
  destruct (cache !! "toolkit") as [v|] eqn:Hc.
  - destruct (ToolkitValidator.provenance (Enumerator.toolkit e))
      as [prov|exc'] eqn:Hp.
    + by rewrite (apply_unfold e cache v prov ms Hc Hp).
    + intros Happ. right. f_equal.
      destruct e as [self|self|self]; simpl in *.
      * unfold EnumerateTautomers._apply, EnumerateTautomers._create_result,
          CustomWorkflowComponent.create_result, cache_getitem in Happ.
        rewrite Hc, Hp in Happ. simpl in Happ. by injection Happ.
      * unfold EnumerateStereoisomers._apply,
          EnumerateStereoisomers._create_result,
          CustomWorkflowComponent.create_result, cache_getitem in Happ.
        rewrite Hc, Hp in Happ. simpl in Happ. by injection Happ.
      * unfold EnumerateProtomers._apply, EnumerateProtomers._create_result,
          CustomWorkflowComponent.create_result, cache_getitem in Happ.
        rewrite Hp in Happ. simpl in Happ. by injection Happ.
  - destruct e as [self|self|self]; simpl.
    + unfold EnumerateTautomers._apply, cache_getitem. rewrite Hc. simpl.
      intros [= <-]. by left.
    + unfold EnumerateStereoisomers._apply, cache_getitem. rewrite Hc. simpl.
      intros [= <-]. by left.
    + unfold EnumerateProtomers._apply, EnumerateProtomers._create_result,
        CustomWorkflowComponent.create_result, cache_getitem.
      destruct (ToolkitValidator.provenance _) as [prov|exc']; simpl.
      * rewrite Hc. simpl. intros [= <-]. by left.
      * intros [= <-]. by right.
Qed.

End EnumeratorRuns.

(** ** Edge cases and the two revisions *)

Section Edges.
Context {Molecule : Type} {tk : MoleculeToolkit Molecule} {env : PythonEnv}.
Implicit Types (r result : ComponentResult Molecule) (m : Molecule).
Implicit Types (e : Enumerator.t) (v : CacheValue).
Import ComponentResult.
Local Arguments ToolkitValidator.getitem : simpl never.
Local Arguments ToolkitValidator.provenance : simpl never.

(** X16.  On an empty list of molecules [apply] of an enumerator returns the
    result that [_create_result] built, with nothing passed and nothing
    filtered; the pool is opened all the same when [processors] is [None] or
    greater than one, and the cache is cleared. *)
Theorem enumerator_apply_empty_input e processors verbose w prov v :
  ToolkitValidator.provenance (Enumerator.toolkit e) = Return prov →
  Enumerator.new_toolkit e = Return v →
  CustomWorkflowComponent.apply (Enumerator.component e) [] processors verbose w =
    (Return (Enumerator.fresh e prov),
     {| CustomWorkflowComponent._cache := ∅;
        CustomWorkflowComponent.events :=
          CustomWorkflowComponent.events w ++
          (if CustomWorkflowComponent.pool_requested processors
           then [CustomWorkflowComponent.PoolOpened processors] else []) |}) ∧
  molecules (Enumerator.fresh e prov) = [] ∧
  filtered (Enumerator.fresh e prov) = [].
Proof.
  intros Hp Hv. split; [|by split].
  unfold CustomWorkflowComponent.apply.
  rewrite (create_result_fresh e prov Hp), apply_init_eq, Hv. simpl.
  assert (Hpar : process_parallel
                   (CustomWorkflowComponent.properties (Enumerator.component e))
                 = true) by by destruct e.
  rewrite Hpar, andb_true_r.
  destruct (CustomWorkflowComponent.pool_requested processors); by destruct e.
Qed.

(** X17.  [is_available()] returning [True] does not mean that [apply] can
    run: with RDKit installed and OpenEye not, a tautomer component set to
    [toolkit="openeye"] is available, and its [apply] raises
    [ModuleNotFoundError] from [provenance()] before anything is set up. *)
Theorem available_component_may_fail_to_apply
    (self : EnumerateTautomers.t) (ms : list Molecule) processors verbose w :
  EnumerateTautomers.toolkit self = "openeye" →
  importable "rdkit" = true →
  importable "openeye" = false →
  CustomWorkflowComponent.is_available (EnumerateTautomers.component self)
    = Return true ∧
  ∃ msg,
    CustomWorkflowComponent.apply (EnumerateTautomers.component self)
      ms processors verbose w = (Raise (ModuleNotFoundError msg), w).
Proof.
  intros Ht Hrd Hoe. split.
  - simpl. unfold ToolkitValidator.is_available. simpl.
    unfold which_import.
    change ("" +:+ "rdkit") with "rdkit". by rewrite Hrd.
  - assert (Hp : ToolkitValidator.provenance
                   (Enumerator.toolkit (Enumerator.Tautomers self)) =
                 Raise (ModuleNotFoundError
                          ("No module named '" +:+ "openeye" +:+ "'"))).
    { simpl. rewrite Ht. unfold ToolkitValidator.provenance, import_version.
      change (String.eqb "openeye" "rdkit") with false.
      change (String.eqb "openeye" "openeye") with true.
      cbn iota. by rewrite Hoe. }
    eexists. unfold CustomWorkflowComponent.apply.
    change (EnumerateTautomers.component self)
      with (Enumerator.component (Enumerator.Tautomers self)).
    by rewrite (create_result_raises _ _ Hp).
Qed.


(** X20.  When OpenEye is there and returns the protomers of a molecule,
    [_apply] of the protomer component passes every protomer and the input
    molecule as well, and filters nothing; with identities that differ there
    is one entry more than protomers. *)
Theorem protomers_pass_with_input
    (self : EnumerateProtomers.t) cache v prov molecule protomers :
  cache !! "toolkit" = Some v →
  truthy v = true →
  ToolkitValidator.provenance (EnumerateProtomers.toolkit self) = Return prov →
  enumerate_protomers molecule (EnumerateProtomers.max_states self)
    = Return protomers →
  ∃ result,
    EnumerateProtomers._apply self cache [molecule] = Return result ∧
    identity molecule ∈ passed_ids result ∧
    (∀ p, p ∈ protomers → identity p ∈ passed_ids result) ∧
    filtered result = [] ∧
    (NoDup (identity <$> protomers ++ [molecule]) →
     length (molecules result) = S (length protomers)).
Proof.
  intros Hc Hv Hp Ht.
  pose proof (apply_unfold (Enumerator.Protomers self) cache v prov [molecule] Hc Hp)
    as Happ.
  simpl in Happ. rewrite Hv in Happ.
  unfold EnumerateProtomers.step in Happ. rewrite Ht in Happ.
  set (r0 := Enumerator.fresh (Enumerator.Protomers self) prov) in *.
  eexists. split; [exact Happ|].
  change (add_molecule (foldl add_molecule r0 protomers) molecule)
    with (foldl add_molecule (foldl add_molecule r0 protomers) [molecule]).
  rewrite <- foldl_app.
  assert (Hids : passed_ids (foldl add_molecule r0 (protomers ++ [molecule])) =
                 list_to_set (identity <$> protomers ++ [molecule])).
  { rewrite passed_ids_foldl_add by done. unfold passed_ids. simpl.
    rewrite dom_empty_L. set_solver. }
  rewrite Hids. repeat split.
  - apply elem_of_list_to_set, list_elem_of_fmap. exists molecule.
    split; [done|]. apply elem_of_app. right. by left.
  - intros t Hin. apply elem_of_list_to_set, list_elem_of_fmap. exists t.
    split; [done|]. apply elem_of_app. by left.
  - apply filtered_nil. by rewrite filtered_foldl_add.
  - intros Hnd. rewrite length_molecules_ids, Hids, size_ids by done.
    rewrite length_app. simpl. lia.
Qed.

End Edges.

Section Revised.
Context {Molecule : Type} {tk : MoleculeToolkit Molecule} {env : PythonEnv}.
Implicit Types (r : ComponentResult Molecule) (m : Molecule).
Import ComponentResult.

(** X19.  Where the toolkit finds tautomers the two revisions differ: from
    an empty result the earlier one passes the tautomers alone, the current
    one the tautomers and the input molecule. *)
Theorem revisions_differ_on_input (self : EnumerateTautomers.t) v r m tautomers :
  _molecules r = ∅ → _filtered r = ∅ →
  enumerate_tautomers m (EnumerateTautomers.max_tautomers self) v
    = Return tautomers →
  tautomers ≠ [] →
  passed_ids (Legacy.tautomers_step (EnumerateTautomers.max_tautomers self) v r m)
    = list_to_set (identity <$> tautomers) ∧
  passed_ids (EnumerateTautomers.step self v r m)
    = list_to_set (identity <$> tautomers) ∪ {[ identity m ]}.
Proof.
  intros Hm Hf He Hne. unfold Legacy.tautomers_step, EnumerateTautomers.step.
  rewrite He. rewrite bool_decide_eq_false_2 by (by destruct tautomers).
  assert (Hids : passed_ids (foldl add_molecule r tautomers) =
                 list_to_set (identity <$> tautomers)).
  { rewrite passed_ids_foldl_add by done. unfold passed_ids. rewrite Hm, dom_empty_L.
    set_solver. }
  split; [exact Hids|].
  rewrite passed_ids_add, Hids. rewrite decide_False; [set_solver|].
  unfold filtered_ids. rewrite filtered_foldl_add, Hf, dom_empty_L. set_solver.
Qed.

End Revised.

(** ** Concrete runs of the further properties *)

Section MoreRuns.
Import Toy ComponentResult.
#[local] Existing Instance env_all.

(** Witness of X1. *)
Lemma provenance_records_versions_run :
  ToolkitValidator.provenance "openeye" = Return provenance_openeye ∧
  provenance_openeye !! "openeye" = Some "1.0" ∧
  provenance_openeye !! "openff-toolkit" = Some "1.0".
Proof.
  assert (Hp : ToolkitValidator.provenance "openeye" = Return provenance_openeye)
    by reflexivity.
  split; [exact Hp|].
  destruct (provenance_records_versions "openeye" provenance_openeye Hp)
    as (Htk & _ & Hbackend & _).
  split; [|exact Htk]. apply Hbackend. by right.
Defined.

(** Witness of X4. *)
Lemma constructed_component_caches_toolkit_run :
  Enumerator.new Enumerator.KProtomers "openeye"
    = Return (EnumerateProtomers.component protomer_default) ∧
  ∃ cache',
    CustomWorkflowComponent._apply_init
      (EnumerateProtomers.component protomer_default)
      Sample.empty_result no_openeye_cache = Return cache' ∧
    cache' !! "toolkit" = Some openeye.
Proof.
  assert (Hnew : Enumerator.new (Molecule:=Mol) Enumerator.KProtomers "openeye"
                 = Return (EnumerateProtomers.component protomer_default))
    by reflexivity.
  split; [exact Hnew|].
  destruct (constructed_component_caches_toolkit Enumerator.KProtomers "openeye"
              _ Hnew) as (wrapper & Hw & Hinit).
  assert (Heq : wrapper = OpenEyeToolkitWrapper).
  { vm_compute in Hw. by injection Hw as <-. }
  subst wrapper.
  destruct (Hinit Sample.empty_result no_openeye_cache)
    as (cache' & Hc & Hl & _).
  exists cache'. by split.
Defined.

(** Witness of X6. *)
Lemma rejected_name_is_reported_run :
  ToolkitValidator._check_toolkit EnumerateProtomers._toolkits "rdkit"
    = Raise (ValueError
        "The requested toolkit (rdkit) is not support by the OFFTK. Please chose from dict_keys(['openeye']).") ∧
  ("rdkit" ∉ ToolkitValidator.keys EnumerateProtomers._toolkits).
Proof.
  assert (Hc : ToolkitValidator._check_toolkit EnumerateProtomers._toolkits "rdkit"
               = Raise (ValueError
        "The requested toolkit (rdkit) is not support by the OFFTK. Please chose from dict_keys(['openeye']).")) by reflexivity.
  split; [exact Hc|].
  exact (proj1 (rejected_name_is_reported EnumerateProtomers._toolkits "rdkit" _ Hc)).
Defined.

(** Witness of X7: the second of three molecules makes the toolkit raise. *)
Lemma first_failing_unit_aborts_run :
  let batch := [mol "keto"] ++ mol "radical" :: [mol "water"] in
  let exc := ToolkitError "tautomer enumeration failed" in
  CustomWorkflowComponent._create_result Sample.fragile
    = Return Sample.empty_result ∧
  CustomWorkflowComponent._apply_init Sample.fragile Sample.empty_result
    (CustomWorkflowComponent._cache world0) = Return ∅ ∧
  Forall (λ m', returns (CustomWorkflowComponent._apply Sample.fragile ∅ [m']) = true)
    [mol "keto"] ∧
  CustomWorkflowComponent._apply Sample.fragile ∅ [mol "radical"] = Raise exc ∧
  (CustomWorkflowComponent.apply Sample.fragile batch (Some 4) true world0).1
    = Raise exc ∧
  CustomWorkflowComponent.events
    (CustomWorkflowComponent.apply Sample.fragile batch (Some 4) true world0).2
    = CustomWorkflowComponent.RanInCaller <$> [mol "keto"; mol "radical"].
Proof.
  intros batch exc.
  assert (Hc : CustomWorkflowComponent._create_result Sample.fragile
               = Return Sample.empty_result) by reflexivity.
  assert (Hi : CustomWorkflowComponent._apply_init Sample.fragile
                 Sample.empty_result (CustomWorkflowComponent._cache world0)
               = Return ∅) by reflexivity.
  assert (Hb : Forall (λ m', returns (CustomWorkflowComponent._apply
                                        Sample.fragile ∅ [m']) = true)
                 [mol "keto"]).
  { constructor; [reflexivity|constructor]. }
  assert (Hm : CustomWorkflowComponent._apply Sample.fragile ∅ [mol "radical"]
               = Raise exc) by reflexivity.
  split; [exact Hc|]. split; [exact Hi|]. split; [exact Hb|]. split; [exact Hm|].
  destruct (first_failing_unit_aborts Sample.fragile [mol "keto"] (mol "radical")
              [mol "water"] (Some 4) true world0 Sample.empty_result ∅ exc
              Hc Hi Hb Hm) as (Hout & _ & Hev).
  split; [exact Hout|]. etrans; [exact Hev|reflexivity].
Defined.

(** Witness of X8. *)
Lemma sequential_success_runs_all_run :
  let batch := [mol "keto"; mol "water"] in
  CustomWorkflowComponent.pool_requested None
    && process_parallel (CustomWorkflowComponent.properties Sample.fragile) = false ∧
  (∃ r, (CustomWorkflowComponent.apply Sample.fragile batch None true world0).1
        = Return r) ∧
  CustomWorkflowComponent.events
    (CustomWorkflowComponent.apply Sample.fragile batch None true world0).2
    = CustomWorkflowComponent.RanInCaller <$> batch.
Proof.
  intros batch.
  assert (Hr : ∃ r, (CustomWorkflowComponent.apply Sample.fragile batch None true
                       world0).1 = Return r).
  { eexists. vm_compute. reflexivity. }
  split; [reflexivity|]. split; [exact Hr|].
  destruct Hr as [r Hr].
  exact (sequential_success_runs_all Sample.fragile batch None true world0 r
           eq_refl Hr).
Defined.

(** Witness of X11: the selected backend is not installed. *)
Lemma enumerator_apply_failure_leaves_world_run :
  let e := Enumerator.Tautomers tautomer_default in
  let exc := ModuleNotFoundError "No module named 'openeye'" in
  (CustomWorkflowComponent.apply (Enumerator.component (env:=env_none) e)
     [mol "keto"] None true world0).1 = Raise exc ∧
  (CustomWorkflowComponent.apply (Enumerator.component (env:=env_none) e)
     [mol "keto"] None true world0).2 = world0.
Proof.
  intros e exc.
  assert (Hr : (CustomWorkflowComponent.apply
                  (Enumerator.component (env:=env_none) e)
                  [mol "keto"] None true world0).1 = Raise exc) by reflexivity.
  split; [exact Hr|].
  exact (proj1 (enumerator_apply_failure_leaves_world (env:=env_none) e
                  [mol "keto"] None true world0 exc Hr)).
Defined.

(** Witness of X12: a cache that held a stale flag is empty afterwards. *)
Lemma enumerator_apply_success_world_run :
  let e := Enumerator.Tautomers tautomer_default in
  let stale := {| CustomWorkflowComponent._cache := no_openeye_cache;
                  CustomWorkflowComponent.events := [] |} in
  (∃ r, (CustomWorkflowComponent.apply (Enumerator.component e)
           [mol "keto"] (Some 1) true stale).1 = Return r) ∧
  (CustomWorkflowComponent.apply (Enumerator.component e)
     [mol "keto"] (Some 1) true stale).2
  = {| CustomWorkflowComponent._cache := ∅;
       CustomWorkflowComponent.events :=
         [CustomWorkflowComponent.RanInCaller (mol "keto")] |}.
Proof.
  intros e stale.
  assert (Hr : ∃ r, (CustomWorkflowComponent.apply (Enumerator.component e)
                       [mol "keto"] (Some 1) true stale).1 = Return r).
  { eexists. vm_compute. reflexivity. }
  split; [exact Hr|]. destruct Hr as [r Hr].
  exact (enumerator_apply_success_world e [mol "keto"] (Some 1) true stale r Hr).
Defined.

(** Witness of X14. *)
Lemma apply_unit_without_init_run :
  (∅ : Cache) !! "toolkit" = None ∧
  CustomWorkflowComponent._apply
    (Enumerator.component (Enumerator.Protomers protomer_default)) ∅ [mol "acid"]
  = Raise (KeyError "toolkit").
Proof.
  split; [reflexivity|].
  exact (apply_unit_without_init (Enumerator.Protomers protomer_default) ∅
           [mol "acid"] eq_refl).
Defined.

(** Witness of X15. *)
Lemma only_setup_errors_leave_apply_unit_run :
  CustomWorkflowComponent._apply
    (Enumerator.component (Enumerator.Tautomers tautomer_default)) ∅ [mol "radical"]
  = Raise (KeyError "toolkit") ∧
  ((KeyError "toolkit" = KeyError "toolkit" ∧ (∅ : Cache) !! "toolkit" = None) ∨
   ToolkitValidator.provenance
     (Enumerator.toolkit (Enumerator.Tautomers tautomer_default))
   = Raise (KeyError "toolkit")).
Proof.
  assert (Hr : CustomWorkflowComponent._apply
                 (Enumerator.component (Enumerator.Tautomers tautomer_default))
                 ∅ [mol "radical"] = Raise (KeyError "toolkit")) by reflexivity.
  split; [exact Hr|].
  exact (only_setup_errors_leave_apply_unit
           (Enumerator.Tautomers tautomer_default) ∅ [mol "radical"] _ Hr).
Defined.

(** Witness of X16. *)
Lemma enumerator_apply_empty_input_run :
  let e := Enumerator.Stereoisomers stereo_default in
  ToolkitValidator.provenance (Enumerator.toolkit e) = Return provenance_openeye ∧
  Enumerator.new_toolkit e = Return openeye ∧
  CustomWorkflowComponent.apply (Enumerator.component e) [] None true world0 =
    (Return (Enumerator.fresh e provenance_openeye),
     {| CustomWorkflowComponent._cache := ∅;
        CustomWorkflowComponent.events := [CustomWorkflowComponent.PoolOpened None] |}).
Proof.
  intros e.
  assert (Hp : ToolkitValidator.provenance (Enumerator.toolkit e) =
               Return provenance_openeye) by reflexivity.
  assert (Hv : Enumerator.new_toolkit e = Return openeye) by reflexivity.
  split; [exact Hp|]. split; [exact Hv|].
  exact (proj1 (enumerator_apply_empty_input e None true world0
                  provenance_openeye openeye Hp Hv)).
Defined.

(** Witness of X17: only RDKit is installed. *)
Lemma available_component_may_fail_to_apply_run :
  EnumerateTautomers.toolkit tautomer_default = "openeye" ∧
  importable (PythonEnv:=env_rdkit) "rdkit" = true ∧
  importable (PythonEnv:=env_rdkit) "openeye" = false ∧
  CustomWorkflowComponent.is_available
    (EnumerateTautomers.component (env:=env_rdkit) tautomer_default) = Return true ∧
  ∃ msg,
    CustomWorkflowComponent.apply
      (EnumerateTautomers.component (env:=env_rdkit) tautomer_default)
      [mol "keto"] None true world0 = (Raise (ModuleNotFoundError msg), world0).
Proof.
  split; [reflexivity|]. split; [reflexivity|]. split; [reflexivity|].
  exact (available_component_may_fail_to_apply (env:=env_rdkit) tautomer_default
           [mol "keto"] None true world0 eq_refl eq_refl eq_refl).
Defined.


(** Witness of X19: a molecule with three tautomers. *)
Lemma revisions_differ_on_input_run :
  let tautomers := [mol "enol-a"; mol "enol-b"; mol "enol-c"] in
  enumerate_tautomers (mol "keto") 20 openeye = Return tautomers ∧
  ("keto" ∉ passed_ids (Legacy.tautomers_step 20 openeye Sample.empty_result
                          (mol "keto"))) ∧
  "keto" ∈ passed_ids (EnumerateTautomers.step tautomer_default openeye
                         Sample.empty_result (mol "keto")).
Proof.
  intros tautomers.
  assert (Ht : enumerate_tautomers (mol "keto")
                 (EnumerateTautomers.max_tautomers tautomer_default) openeye
               = Return tautomers) by reflexivity.
  split; [exact Ht|].
  destruct (revisions_differ_on_input tautomer_default openeye
              Sample.empty_result (mol "keto") tautomers eq_refl eq_refl Ht)
    as [Hold Hnew]; [discriminate|].
  split.
  - change (EnumerateTautomers.max_tautomers tautomer_default) with 20 in Hold.
    rewrite Hold. intros Hin. apply elem_of_list_to_set in Hin.
    apply elem_of_cons in Hin as [Heq|Hin]; [discriminate Heq|].
    apply elem_of_cons in Hin as [Heq|Hin]; [discriminate Heq|].
    apply elem_of_cons in Hin as [Heq|Hin]; [discriminate Heq|].
    by apply elem_of_nil in Hin.
  - rewrite Hnew. apply elem_of_union_r. by apply elem_of_singleton.
Defined.

(** Witness of X20: an acid and its base. *)
Lemma protomers_pass_with_input_run :
  ready_cache !! "toolkit" = Some openeye ∧
  truthy openeye = true ∧
  ToolkitValidator.provenance (EnumerateProtomers.toolkit protomer_default)
    = Return provenance_openeye ∧
  enumerate_protomers (mol "acid") 10 = Return [mol "base"] ∧
  ∃ result,
    EnumerateProtomers._apply protomer_default ready_cache [mol "acid"]
      = Return result ∧
    length (molecules result) = 2%nat ∧ filtered result = [].
Proof.
  assert (Hc : ready_cache !! "toolkit" = Some openeye) by reflexivity.
  assert (Hp : ToolkitValidator.provenance
                 (EnumerateProtomers.toolkit protomer_default)
               = Return provenance_openeye) by reflexivity.
  assert (Ht : enumerate_protomers (mol "acid")
                 (EnumerateProtomers.max_states protomer_default)
               = Return [mol "base"]) by reflexivity.
  split; [exact Hc|]. split; [reflexivity|]. split; [exact Hp|].
  split; [exact Ht|].
  destruct (protomers_pass_with_input protomer_default ready_cache openeye
              provenance_openeye (mol "acid") [mol "base"] Hc eq_refl Hp Ht)
    as (result & Happ & _ & _ & Hf & Hlen).
  exists result. split; [exact Happ|]. split; [|exact Hf].
  apply Hlen. compute_done.
Defined.

End MoreRuns.
